(** * Invoice ledger and edit-request workflow of the billing dashboard

  A shallow embedding of the handlers of [src/app/business/page.js] and
  [src/app/customer/page.js].  The hosted database is a record of tables,
  each table a list of rows in insertion order; every handler is a
  function that threads the database through its storage calls in
  program order.  A storage call may return an error instead of doing
  its work: the environment says, for the k-th call of a handler,
  whether it fails and with which message.

  Numbers are exact integers: the claims settled here are about which
  value is written where, not about rounding. *)

From Stdlib Require Import ZArith List String Bool Lia DecimalString.
Import ListNotations.
Local Open Scope Z_scope.

(** ** The tables and the client calls *)

Module Store.

Inductive InvoiceStatus := sent | paid | overdue.
Inductive RequestStatus := pending | approved | rejected.

Definition invoice_status_eqb (a b : InvoiceStatus) : bool :=
  match a, b with
  | sent, sent | paid, paid | overdue, overdue => true
  | _, _ => false
  end.

Definition request_status_eqb (a b : RequestStatus) : bool :=
  match a, b with
  | pending, pending | approved, approved | rejected, rejected => true
  | _, _ => false
  end.

(** A row of [invoice_items]; the same shape is what the JSON snapshots
    [original_items] and [requested_items] of an edit request carry. *)
Record LineItem := mkLineItem {
  invoice_id : Z;
  item_name : string;
  quantity : Z;
  unit_price : Z;
  total_price : Z
}.

Record Invoice := mkInvoice {
  inv_id : Z;
  business_id : Z;
  customer_id : Z;
  invoice_number : string;
  invoice_date : Z;              (* a calendar day, counted in days *)
  due_date : Z;
  total_amount : Z;
  paid_amount : Z;
  status : InvoiceStatus;
  updated_at : option Z
}.

Record EditRequest := mkEditRequest {
  req_id : Z;
  req_invoice_id : Z;
  requested_by : Z;
  original_items : list LineItem;
  requested_items : list LineItem;
  req_status : RequestStatus;
  reviewed_at : option Z
}.

Record Payment := mkPayment {
  pay_invoice_id : Z;
  amount : Z;
  payment_date : Z;
  payment_method : string
}.

(** [payment_terms_days] is [None] when the column is null. *)
Record BusinessCustomer := mkBusinessCustomer {
  bc_business_id : Z;
  bc_customer_id : Z;
  credit_limit : Z;
  payment_terms_days : option Z
}.

Record DB := mkDB {
  business_customers : list BusinessCustomer;
  invoices : list Invoice;
  invoice_items : list LineItem;
  invoice_edit_requests : list EditRequest;
  payments : list Payment
}.

Definition empty_db : DB := mkDB [] [] [] [] [].

(** The environment of one handler run: [fault k] is the error returned
    by the k-th storage call of the handler ([None]: the call succeeds),
    [clock k] the k-th reading of the clock, in milliseconds. *)
Record Env := mkEnv {
  fault : nat -> option string;
  clock : nat -> Z
}.

Definition no_fault : nat -> option string := fun _ => None.

(** What the handler shows with [alert], if anything. *)
Inductive Outcome := Silent | Alert (msg : string).

(** [a || b] on a number that may be missing: null, undefined and 0 are
    falsy. *)
Definition js_or (a : option Z) (b : Z) : Z :=
  match a with
  | Some n => if n =? 0 then b else n
  | None => b
  end.

(** [.single()]: the row when the query matches exactly one. *)
Definition single {A : Type} (rows : list A) : option A :=
  match rows with
  | [r] => Some r
  | _ => None
  end.

(** [toISOString().split('T')[0]] of a millisecond clock reading. *)
Definition day_of (ms : Z) : Z := ms / 86400000.

Definition show (z : Z) : string := NilZero.string_of_int (Z.to_int z).

Definition max_id (ids : list Z) : Z := fold_right Z.max 0 ids.

(** The key the database gives a new invoice: one that no stored
    invoice has and no stored item refers to. *)
Definition next_invoice_id (d : DB) : Z :=
  1 + max_id (map inv_id (invoices d) ++ map invoice_id (invoice_items d)).

Definition next_request_id (d : DB) : Z :=
  1 + max_id (map req_id (invoice_edit_requests d)).

(** [{ data }] of a select: null when the call returned an error. *)
Definition query {A : Type} (err : option string) (rows : list A) : option (list A) :=
  match err with
  | None => Some rows
  | Some _ => None
  end.

(** [data || []] *)
Definition or_empty {A : Type} (data : option (list A)) : list A :=
  match data with
  | Some rows => rows
  | None => []
  end.

(** The columns a form field can name. *)
Inductive Field := item_name_field | quantity_field | unit_price_field.

(** [updated[index] = f updated[index]] on a copy; an index past the end
    throws before the state is set, which leaves the list as it was. *)
Fixpoint update_at {A : Type} (index : nat) (f : A -> A) (l : list A) : list A :=
  match l, index with
  | [], _ => []
  | x :: t, O => f x :: t
  | x :: t, S i => x :: update_at i f t
  end.

(** [l.filter((_, i) => i !== index)] *)
Fixpoint remove_at {A : Type} (index : nat) (l : list A) : list A :=
  match l, index with
  | [], _ => []
  | _ :: t, O => t
  | x :: t, S i => x :: remove_at i t
  end.

(** *** Writes, as they act when the call succeeds *)

Definition insert_invoice (row : Invoice) (d : DB) : DB :=
  mkDB (business_customers d) (invoices d ++ [row]) (invoice_items d)
       (invoice_edit_requests d) (payments d).

Definition insert_items (rows : list LineItem) (d : DB) : DB :=
  mkDB (business_customers d) (invoices d) (invoice_items d ++ rows)
       (invoice_edit_requests d) (payments d).

Definition delete_items (invoiceId : Z) (d : DB) : DB :=
  mkDB (business_customers d) (invoices d)
       (filter (fun it => negb (invoice_id it =? invoiceId)) (invoice_items d))
       (invoice_edit_requests d) (payments d).

Definition update_invoices (invoiceId : Z) (f : Invoice -> Invoice) (d : DB) : DB :=
  mkDB (business_customers d)
       (map (fun inv => if inv_id inv =? invoiceId then f inv else inv) (invoices d))
       (invoice_items d) (invoice_edit_requests d) (payments d).

Definition insert_request (row : EditRequest) (d : DB) : DB :=
  mkDB (business_customers d) (invoices d) (invoice_items d)
       (invoice_edit_requests d ++ [row]) (payments d).

Definition update_requests (requestId : Z) (f : EditRequest -> EditRequest) (d : DB) : DB :=
  mkDB (business_customers d) (invoices d) (invoice_items d)
       (map (fun r => if req_id r =? requestId then f r else r) (invoice_edit_requests d))
       (payments d).

Definition insert_payment (row : Payment) (d : DB) : DB :=
  mkDB (business_customers d) (invoices d) (invoice_items d)
       (invoice_edit_requests d) (payments d ++ [row]).

(** A write whose call returned [err]: nothing happens on an error. *)
Definition attempt (err : option string) (write : DB -> DB) (d : DB) : DB :=
  match err with
  | None => write d
  | Some _ => d
  end.

(** *** Reads *)

Definition items_of (d : DB) (invoiceId : Z) : list LineItem :=
  filter (fun it => invoice_id it =? invoiceId) (invoice_items d).

(** An invoice row together with its embedded item rows, as the
    dashboards select it. *)
Record InvoiceView := mkInvoiceView {
  view_invoice : Invoice;
  items : list LineItem
}.

Definition with_items (d : DB) (inv : Invoice) : InvoiceView :=
  mkInvoiceView inv (items_of d (inv_id inv)).

(** *** Column setters used by the updates *)

Definition set_paid (amount : Z) (inv : Invoice) : Invoice :=
  mkInvoice (inv_id inv) (business_id inv) (customer_id inv) (invoice_number inv)
            (invoice_date inv) (due_date inv) (total_amount inv)
            amount paid (updated_at inv).

Definition set_total (total : Z) (now : Z) (inv : Invoice) : Invoice :=
  mkInvoice (inv_id inv) (business_id inv) (customer_id inv) (invoice_number inv)
            (invoice_date inv) (due_date inv) total
            (paid_amount inv) (status inv) (Some now).

Definition set_reviewed (s : RequestStatus) (now : Z) (r : EditRequest) : EditRequest :=
  mkEditRequest (req_id r) (req_invoice_id r) (requested_by r) (original_items r)
                (requested_items r) s (Some now).

End Store.

(** ** The business dashboard, [src/app/business/page.js] *)

Module Business.
Import Store.

(** What [loadData] puts in the component's state. *)
Record Dashboard := mkDashboard {
  customers : list BusinessCustomer;
  shown_invoices : list InvoiceView;
  editRequests : list EditRequest
}.

(** Rows are kept in insertion order, so [created_at] descending is the
    reverse of the table. *)
Definition loadData (env : Env) (businessId : Z) (d : DB) : Dashboard :=
  let customersData :=
    query (fault env 0)
          (filter (fun bc => bc_business_id bc =? businessId) (business_customers d)) in
  let invoicesData :=
    query (fault env 1)
          (map (with_items d)
               (rev (filter (fun inv => business_id inv =? businessId) (invoices d)))) in
  let requestsData :=
    query (fault env 2)
          (filter (fun r =>
                     request_status_eqb (req_status r) pending
                     && existsb (Z.eqb (req_invoice_id r))
                                (map (fun inv => inv_id (view_invoice inv))
                                     (or_empty invoicesData)))
                  (invoice_edit_requests d)) in
  mkDashboard (or_empty customersData) (or_empty invoicesData) (or_empty requestsData).

(** *** The create-invoice form *)

Record FormRow := mkFormRow {
  row_item_name : string;
  row_quantity : string;
  row_unit_price : string
}.

Definition blank_row : FormRow := mkFormRow "" "" "".

Definition set_field (field : Field) (value : string) (r : FormRow) : FormRow :=
  match field with
  | item_name_field => mkFormRow value (row_quantity r) (row_unit_price r)
  | quantity_field => mkFormRow (row_item_name r) value (row_unit_price r)
  | unit_price_field => mkFormRow (row_item_name r) (row_quantity r) value
  end.

Definition addInvoiceItem (invoiceItems : list FormRow) : list FormRow :=
  invoiceItems ++ [blank_row].

Definition removeInvoiceItem (index : nat) (invoiceItems : list FormRow) : list FormRow :=
  remove_at index invoiceItems.

Definition updateInvoiceItem (index : nat) (field : Field) (value : string)
           (invoiceItems : list FormRow) : list FormRow :=
  update_at index (set_field field value) invoiceItems.

(** The remove control of a row is rendered when
    [invoiceItems.length > 1]. *)
Definition removeOffered (invoiceItems : list FormRow) : bool :=
  (1 <? List.length invoiceItems)%nat.

(** What the user can do to the rows of the form.  [ResetRows] is the
    cancel button and the end of a successful [handleCreateInvoice]. *)
Inductive FormAction :=
| AddRow
| RemoveRow (index : nat)
| UpdateRow (index : nat) (field : Field) (value : string)
| ResetRows.

Definition form_step (invoiceItems : list FormRow) (a : FormAction) : list FormRow :=
  match a with
  | AddRow => addInvoiceItem invoiceItems
  | RemoveRow index =>
      if removeOffered invoiceItems then removeInvoiceItem index invoiceItems
      else invoiceItems
  | UpdateRow index field value => updateInvoiceItem index field value invoiceItems
  | ResetRows => [blank_row]
  end.

Definition initial_rows : list FormRow := [blank_row].

(** *** Handlers *)

Section Handlers.

(** The reading of a numeric input.  The quantity and price inputs are
    [type="number"] and [required], so the form is submitted with
    numerals in them. *)
Variable parseFloat : string -> Z.

(** Dates are day counts.  The source parses the invoice date as midnight
    UTC, adds the terms to the day of the month in local time and reads
    the result back in UTC; the sum [invoiceDate + paymentTerms] is that
    date where no clock change falls between the two days and the terms
    stay within the range of [Date].  Amounts are exact numbers. *)
Definition handleCreateInvoice (env : Env) (businessId selectedCustomerId invoiceDate : Z)
           (invoiceItems : list FormRow) (d : DB) : DB * Outcome :=
  let total :=
    fold_left (fun sum item =>
                 sum + parseFloat (row_quantity item) * parseFloat (row_unit_price item))
              invoiceItems 0 in
  let bcData :=
    match fault env 0 with
    | None => single (filter (fun bc => (bc_business_id bc =? businessId)
                                        && (bc_customer_id bc =? selectedCustomerId))
                             (business_customers d))
    | Some _ => None
    end in
  let paymentTerms :=
    js_or (match bcData with
           | Some bc => payment_terms_days bc
           | None => None
           end) 30 in
  let dueDate := invoiceDate + paymentTerms in
  let invoiceNumber := String.append "INV-" (show (clock env 0)) in
  match fault env 1 with
  | Some message => (d, Alert (String.append "Error creating invoice: " message))
  | None =>
      let invoice :=
        mkInvoice (next_invoice_id d) businessId selectedCustomerId invoiceNumber
                  invoiceDate dueDate total 0 sent None in
      let d1 := insert_invoice invoice d in
      let items :=
        map (fun item =>
               mkLineItem (inv_id invoice) (row_item_name item)
                          (parseFloat (row_quantity item))
                          (parseFloat (row_unit_price item))
                          (parseFloat (row_quantity item) * parseFloat (row_unit_price item)))
            invoiceItems in
      match fault env 2 with
      | Some message =>
          (d1, Alert (String.append "Error creating invoice items: " message))
      | None => (insert_items items d1, Silent)
      end
  end.

End Handlers.

(** The payment terms that [handleCreateInvoice] reads for its customer
    (lines 227-235): those of the one link of the pair, and 30 when the
    lookup gives no row or the row's terms are 0 or null. *)
Definition paymentTerms (env : Env) (businessId selectedCustomerId : Z) (d : DB) : Z :=
  let bcData :=
    match fault env 0 with
    | None => single (filter (fun bc => (bc_business_id bc =? businessId)
                                        && (bc_customer_id bc =? selectedCustomerId))
                             (business_customers d))
    | Some _ => None
    end in
  js_or (match bcData with
         | Some bc => payment_terms_days bc
         | None => None
         end) 30.

Definition markAsPaid (env : Env) (invoiceId totalAmount : Z) (d : DB) : DB * Outcome :=
  match fault env 0 with
  | Some message => (d, Alert (String.append "Error: " message))
  | None =>
      let d1 := update_invoices invoiceId (set_paid totalAmount) d in
      let d2 :=
        attempt (fault env 1)
                (insert_payment (mkPayment invoiceId totalAmount (day_of (clock env 0)) "Manual"))
                d1 in
      (d2, Silent)
  end.

Definition approveEditRequest (env : Env) (requestId invoiceId : Z)
           (requestedItems : list LineItem) (d : DB) : DB * Outcome :=
  let invoice :=
    match fault env 0 with
    | None => single (filter (fun inv => inv_id inv =? invoiceId) (invoices d))
    | Some _ => None
    end in
  let d1 := attempt (fault env 1) (delete_items invoiceId) d in
  let d2 :=
    attempt (fault env 2)
            (insert_items
               (map (fun item =>
                       mkLineItem invoiceId (item_name item) (quantity item)
                                  (unit_price item) (total_price item))
                    requestedItems))
            d1 in
  let newTotal := fold_left (fun sum item => sum + total_price item) requestedItems 0 in
  let d3 :=
    attempt (fault env 3) (update_invoices invoiceId (set_total newTotal (clock env 0))) d2 in
  let d4 :=
    attempt (fault env 4) (update_requests requestId (set_reviewed approved (clock env 1))) d3 in
  (d4, Silent).

Definition rejectEditRequest (env : Env) (requestId : Z) (d : DB) : DB * Outcome :=
  (attempt (fault env 0) (update_requests requestId (set_reviewed rejected (clock env 0))) d,
   Silent).

(** *** What the rendered page lets the user call *)

(** "Mark Paid" is rendered when [invoice.status !== 'paid']. *)
Definition markPaidOffered (invoice : InvoiceView) : bool :=
  negb (invoice_status_eqb (status (view_invoice invoice)) paid).

Definition markPaidClick (env : Env) (invoice : InvoiceView) : DB -> DB * Outcome :=
  markAsPaid env (inv_id (view_invoice invoice)) (total_amount (view_invoice invoice)).

(** The Approve and Reject buttons of a card of [editRequests]. *)
Definition approveClick (env : Env) (request : EditRequest) : DB -> DB * Outcome :=
  approveEditRequest env (req_id request) (req_invoice_id request) (requested_items request).

Definition rejectClick (env : Env) (request : EditRequest) : DB -> DB * Outcome :=
  rejectEditRequest env (req_id request).

End Business.


(** ** The customer dashboard, [src/app/customer/page.js] *)

Module Customer.
Import Store.

(** The component's state. *)
Record Page := mkPage {
  customer : Z;                          (* customer.id *)
  shown_invoices : list InvoiceView;
  selectedInvoice : option InvoiceView;
  showEditModal : bool;
  editedItems : list LineItem;
  myRequests : list EditRequest
}.

Definition loadData (env : Env) (customerId : Z) (d : DB) (p : Page) : Page :=
  let invoicesData :=
    query (fault env 0)
          (map (with_items d)
               (rev (filter (fun inv => customer_id inv =? customerId) (invoices d)))) in
  let requestsData :=
    query (fault env 1)
          (rev (filter (fun r => requested_by r =? customerId) (invoice_edit_requests d))) in
  mkPage (customer p) (or_empty invoicesData) (selectedInvoice p) (showEditModal p)
         (editedItems p) (or_empty requestsData).

(** "Request Edit" is rendered when [invoice.status !== 'paid']. *)
Definition requestEditOffered (invoice : InvoiceView) : bool :=
  negb (invoice_status_eqb (status (view_invoice invoice)) paid).

(** The items are cloned through JSON: the same values in a new list. *)
Definition openEditModal (invoice : InvoiceView) (p : Page) : Page :=
  mkPage (customer p) (shown_invoices p) (Some invoice) true (items invoice) (myRequests p).

Section Handlers.

(** The reading of a numeric input. *)
Variable parseFloat : string -> Z.

(** [updated[index][field] = value].  The snapshot keeps the text typed
    in a numeric field; the numeric column of [invoice_items] reads it as
    the number, which is what the model stores.  A text the column cannot
    read (a field left blank) makes the insert of the approval return an
    error: that is a fault of that call. *)
Definition set_item_field (field : Field) (value : string) (item : LineItem) : LineItem :=
  match field with
  | item_name_field =>
      mkLineItem (invoice_id item) value (quantity item) (unit_price item) (total_price item)
  | quantity_field =>
      mkLineItem (invoice_id item) (item_name item) (parseFloat value) (unit_price item)
                 (total_price item)
  | unit_price_field =>
      mkLineItem (invoice_id item) (item_name item) (quantity item) (parseFloat value)
                 (total_price item)
  end.

Definition recalculate (field : Field) (item : LineItem) : LineItem :=
  match field with
  | quantity_field | unit_price_field =>
      let qty := js_or (Some (quantity item)) 0 in
      let price := js_or (Some (unit_price item)) 0 in
      mkLineItem (invoice_id item) (item_name item) (quantity item) (unit_price item)
                 (qty * price)
  | item_name_field => item
  end.

Definition updateEditedItem (index : nat) (field : Field) (value : string) (p : Page) : Page :=
  let updated :=
    update_at index (fun item => recalculate field (set_item_field field value item))
              (editedItems p) in
  mkPage (customer p) (shown_invoices p) (selectedInvoice p) (showEditModal p)
         updated (myRequests p).

End Handlers.

Definition submitEditRequest (env : Env) (p : Page) (d : DB) : DB * Page * Outcome :=
  match selectedInvoice p with
  | None => (d, p, Silent)
  | Some invoice =>
      match fault env 0 with
      | Some message =>
          (d, p, Alert (String.append "Error submitting request: " message))
      | None =>
          let d1 :=
            insert_request
              (mkEditRequest (next_request_id d) (inv_id (view_invoice invoice)) (customer p)
                             (items invoice) (editedItems p) pending None)
              d in
          (d1,
           mkPage (customer p) (shown_invoices p) None false [] (myRequests p),
           Alert "Edit request submitted successfully!")
      end
  end.

End Customer.


(** ** What the claims speak of *)

Module Ledger.
Import Store.

(** The sum over line items of quantity times unit price. *)
Definition line_sum (l : list LineItem) : Z :=
  fold_left (fun sum item => sum + quantity item * unit_price item) l 0.

(** The sum of the stored [total_price] column. *)
Definition price_sum (l : list LineItem) : Z :=
  fold_left (fun sum item => sum + total_price item) l 0.

(** A line item whose [total_price] is its quantity times its unit price. *)
Definition well_priced (item : LineItem) : Prop :=
  total_price item = quantity item * unit_price item.

(** The name, quantity, unit price and total price of a line item: what
    an item of a snapshot and a stored row can be compared on. *)
Definition line_of (item : LineItem) : string * Z * Z * Z :=
  (item_name item, quantity item, unit_price item, total_price item).

(** Every stored invoice's total is the sum over its stored items. *)
Definition ledger_ok (d : DB) : Prop :=
  forall inv, In inv (invoices d) -> total_amount inv = line_sum (items_of d (inv_id inv)).

(** The ledger invariant together with what keeps it: stored items and
    the items proposed by stored edit requests are well priced. *)
Definition consistent (d : DB) : Prop :=
  ledger_ok d
  /\ Forall well_priced (invoice_items d)
  /\ (forall r, In r (invoice_edit_requests d) -> Forall well_priced (requested_items r)).

(** The items a customer page holds are well priced. *)
Definition page_ok (p : Customer.Page) : Prop :=
  Forall well_priced (Customer.editedItems p)
  /\ (forall inv, In inv (Customer.shown_invoices p) -> Forall well_priced (items inv)).

(** No storage call of the run fails. *)
Definition succeeds (env : Env) : Prop := forall k, fault env k = None.

(** A reading of numerals for running the handlers on examples. *)
Definition parse_decimal (s : string) : Z :=
  match NilZero.int_of_string s with
  | Some i => Z.of_int i
  | None => 0
  end.

Definition calm : Env := mkEnv no_fault (fun _ => 1700000000000).

(** The run in which exactly the [k]-th storage call fails. *)
Definition failing_at (k : nat) : Env :=
  mkEnv (fun i => if Nat.eqb i k then Some "timeout"%string else None)
        (fun _ => 1700000000000).

(** The run in which every storage call fails. *)
Definition outage : Env :=
  mkEnv (fun _ => Some "timeout"%string) (fun _ => 1700000000000).

End Ledger.

(** ** A worked scenario: one invoice for a widget, one edit request *)

Module Scenario.
Import Store Ledger.

Definition linked : DB :=
  mkDB [mkBusinessCustomer 1 7 0 (Some 15)] [] [] [] [].

Definition widget_rows : list Business.FormRow :=
  [Business.mkFormRow "Widget" "2" "10"].

(** The business issues the invoice on day 19000. *)
Definition invoiced : DB :=
  fst (Business.handleCreateInvoice parse_decimal calm 1 7 19000 widget_rows linked).

Definition blank_page : Customer.Page := Customer.mkPage 7 [] None false [] [].

Definition loaded_page : Customer.Page := Customer.loadData calm 7 invoiced blank_page.

(** The customer opens the first invoice shown and asks for three widgets. *)
Definition editing_page : Customer.Page :=
  match Customer.shown_invoices loaded_page with
  | invoice :: _ =>
      Customer.updateEditedItem parse_decimal 0 quantity_field "3"
                                (Customer.openEditModal invoice loaded_page)
  | [] => loaded_page
  end.

Definition requested : DB := fst (fst (Customer.submitEditRequest calm editing_page invoiced)).

(** The card the business dashboard shows for the request. *)
Definition shown_request : option EditRequest :=
  hd_error (Business.editRequests (Business.loadData calm 1 requested)).

Definition widget_request : EditRequest :=
  mkEditRequest 1 1 7 [mkLineItem 1 "Widget" 2 10 20] [mkLineItem 1 "Widget" 3 10 30]
                pending None.

(** The row of the invoice as the dashboards first showed it. *)
Definition widget_view : InvoiceView :=
  mkInvoiceView (mkInvoice 1 1 7 "INV-1700000000000" 19000 19015 20 0 sent None)
                [mkLineItem 1 "Widget" 2 10 20].

(** A later run, ten minutes on the clock after [calm]. *)
Definition later : Env := mkEnv no_fault (fun _ => 1700000600000).

(** The business marks the invoice paid. *)
Definition paid_once : DB := fst (Business.markPaidClick calm widget_view invoiced).

(** The business rejects the request. *)
Definition turned_down : DB := fst (Business.rejectClick calm widget_request requested).

(** A customer linked with payment terms of zero days. *)
Definition zero_terms : DB :=
  mkDB [mkBusinessCustomer 1 7 0 (Some 0)] [] [] [] [].

Definition negative_rows : list Business.FormRow :=
  [Business.mkFormRow "Widget" "-2" "10"].


End Scenario.

(** ** Accounts: the profile and role tables, and [src/lib/auth.js] *)

Module Accounts.
Import Store.

(** [cust_user_id] is [None] while no account is attached to the row. *)
Record CustomerRow := mkCustomerRow {
  cust_id : Z;
  cust_user_id : option Z;
  customer_name : string;
  phone_number : string;
  cust_email : string;
  address : option string
}.

Record BusinessRow := mkBusinessRow {
  biz_id : Z;
  biz_user_id : Z;
  business_name : string;
  biz_email : string;
  biz_phone_number : string;
  gst_number : string
}.

Record RoleRow := mkRoleRow {
  role_user_id : Z;
  role : string
}.

Record Tables := mkTables {
  customers : list CustomerRow;
  businesses : list BusinessRow;
  user_roles : list RoleRow
}.

Definition next_customer_id (t : Tables) : Z := 1 + max_id (map cust_id (customers t)).

Definition next_business_id (t : Tables) : Z := 1 + max_id (map biz_id (businesses t)).

Definition insert_customer (row : CustomerRow) (t : Tables) : Tables :=
  mkTables (customers t ++ [row]) (businesses t) (user_roles t).

Definition insert_business (row : BusinessRow) (t : Tables) : Tables :=
  mkTables (customers t) (businesses t ++ [row]) (user_roles t).

(** [.eq('user_id', id)] on a column that may be null. *)
Definition owned_by (id : Z) (owner : option Z) : bool :=
  match owner with
  | Some u => u =? id
  | None => false
  end.

(** The expression [phone.startsWith('+') ? phone : `+91${phone}`] that
    [handleAddCustomer], [handleSendOTP] and [handleVerifyOTP] share. *)
Definition formatPhone (phone : string) : string :=
  if String.prefix "+" phone then phone else String.append "+91" phone.

(** The role row of a user, as every page selects it. *)
Definition roleData (env : Env) (id : Z) (t : Tables) : option RoleRow :=
  match fault env 0 with
  | None => single (filter (fun r => role_user_id r =? id) (user_roles t))
  | Some _ => None
  end.

(** [user] is what [supabase.auth.getUser()] returned. *)
Definition getUserRole (env : Env) (user : option Z) (t : Tables) : option string :=
  match user with
  | None => None
  | Some id =>
      match roleData env id t with
      | Some r => if (role r =? "")%string then None else Some (role r)
      | None => None
      end
  end.

Definition getBusinessProfile (env : Env) (user : option Z) (t : Tables) : option BusinessRow :=
  match user with
  | None => None
  | Some id =>
      match fault env 0 with
      | None => single (filter (fun b => biz_user_id b =? id) (businesses t))
      | Some _ => None
      end
  end.

Definition getCustomerProfile (env : Env) (user : option Z) (t : Tables) : option CustomerRow :=
  match user with
  | None => None
  | Some id =>
      match fault env 0 with
      | None => single (filter (fun c => owned_by id (cust_user_id c)) (customers t))
      | Some _ => None
      end
  end.

(** What the authentication service answers to a sign-in or sign-up. *)
Inductive AuthReply := AuthFailed (message : string) | AuthUser (id : Z).

(** [supabase.auth.signOut()]: the session is dropped unless the call
    returns an error. *)
Definition signedOut (signOutError : option string) (session : option Z) : option Z :=
  match signOutError with
  | None => None
  | Some _ => session
  end.

(** The environment as the storage calls after the first [k] see it. *)
Definition shift (k : nat) (env : Env) : Env :=
  mkEnv (fun i => fault env (k + i)%nat) (clock env).

End Accounts.

(** ** The home page, [src/app/page.js] *)

Module Home.
Import Store Accounts.

(** The path [checkUser] pushes. *)
Definition checkUser (env : Env) (user : option Z) (t : Tables) : string :=
  match user with
  | Some id =>
      match roleData env id t with
      | Some r =>
          if (role r =? "business")%string then "/business"
          else if (role r =? "customer")%string then "/customer"
          else "/login"
      | None => "/login"
      end
  | None => "/login"
  end.

End Home.

(** ** The login page *)

Module Login.
Import Store Accounts.

Record Page := mkPage {
  email : string;
  password : string;
  phone : string;
  otp : string;
  otpSent : bool;
  loading : bool;
  error : string
}.

(** What a handler leaves: the page, the path pushed if any, the session
    ([before] is the session, if any, that the browser held). *)
Record Run := mkRun {
  page : Page;
  pushed : option string;
  session : option Z
}.

Definition finish (message : string) (p : Page) : Page :=
  mkPage (email p) (password p) (phone p) (otp p) (otpSent p) false message.

Definition handleBusinessLogin (env : Env) (reply : AuthReply) (signOutError : option string)
           (before : option Z) (t : Tables) (p : Page) : Run :=
  match reply with
  | AuthFailed message => mkRun (finish message p) None before
  | AuthUser id =>
      match roleData env id t with
      | Some r =>
          if (role r =? "business")%string
          then mkRun (finish "" p) (Some "/business"%string) (Some id)
          else mkRun (finish "This account is not registered as a business" p) None
                     (signedOut signOutError (Some id))
      | None =>
          mkRun (finish "This account is not registered as a business" p) None
                (signedOut signOutError (Some id))
      end
  end.

(** The page left, and the phone the one-time code is asked for. *)
Definition handleSendOTP (reply : option string) (p : Page) : Page * string :=
  let formattedPhone := formatPhone (phone p) in
  match reply with
  | Some message => (finish message p, formattedPhone)
  | None =>
      (mkPage (email p) (password p) (phone p) (otp p) true false "", formattedPhone)
  end.

Definition handleVerifyOTP (env : Env) (reply : AuthReply) (signOutError : option string)
           (before : option Z) (t : Tables) (p : Page) : Run :=
  match reply with
  | AuthFailed message => mkRun (finish message p) None before
  | AuthUser id =>
      match roleData env id t with
      | Some r =>
          if (role r =? "customer")%string
          then mkRun (finish "" p) (Some "/customer"%string) (Some id)
          else mkRun (finish "This account is not registered as a customer" p) None
                     (signedOut signOutError (Some id))
      | None =>
          mkRun (finish "This account is not registered as a customer" p) None
                (signedOut signOutError (Some id))
      end
  end.

End Login.

(** ** The signup page *)

Module Signup.
Import Store Accounts.

Record FormData := mkFormData {
  email : string;
  password : string;
  phone : string;
  name : string;
  businessName : string;
  gstNumber : string
}.

(** The tables left, the message alerted, the path pushed if any.  The
    inserts return their errors instead of throwing, so the [catch] of the
    handler is not entered. *)
Definition handleSignup (env : Env) (reply : AuthReply) (userType : string)
           (formData : FormData) (t : Tables) : Tables * string * option string :=
  match reply with
  | AuthFailed message => (t, String.append "Error signing up: " message, None)
  | AuthUser userId =>
      let t1 :=
        if (userType =? "business")%string
        then
          match fault env 0 with
          | None =>
              insert_business
                (mkBusinessRow (next_business_id t) userId (businessName formData)
                               (email formData) (phone formData) (gstNumber formData))
                t
          | Some _ => t
          end
        else
          match fault env 0 with
          | None =>
              insert_customer
                (mkCustomerRow (next_customer_id t) (Some userId) (name formData)
                               (phone formData) (email formData) None)
                t
          | Some _ => t
          end in
      (t1,
       "Signup successful! Please check your email to verify your account."%string,
       Some "/login"%string)
  end.

End Signup.

(** ** The business dashboard: entry, customers, what is rendered *)

Module BusinessAdmin.
Import Store Accounts.

Inductive Landing :=
| Redirect (path : string)
| Shown (business : BusinessRow) (dashboard : Business.Dashboard).

(** [loadData] is started with the profile's key; its three selects are
    the storage calls after the profile's. *)
Definition checkAuth (env : Env) (user : option Z) (t : Tables) (d : DB) : Landing :=
  match user with
  | None => Redirect "/login"
  | Some id =>
      let businessData :=
        match fault env 0 with
        | None => single (filter (fun b => biz_user_id b =? id) (businesses t))
        | Some _ => None
        end in
      match businessData with
      | None => Redirect "/login"
      | Some b => Shown b (Business.loadData (shift 1 env) (biz_id b) d)
      end
  end.

Record NewCustomer := mkNewCustomer {
  phone : string;
  name : string;
  email : string;
  address : string;
  creditLimit : string;
  paymentTerms : string
}.

Definition insert_link (row : BusinessCustomer) (d : DB) : DB :=
  mkDB (business_customers d ++ [row]) (invoices d) (invoice_items d)
       (invoice_edit_requests d) (payments d).

Section Handlers.

(** The readings of a numeric input; [None] is NaN, which is sent as
    null. *)
Variable parseFloat : string -> option Z.
Variable parseInt : string -> option Z.

(** The customer row and the link row the form describes. *)
Definition customer_row (newCustomer : NewCustomer) (t : Tables) : CustomerRow :=
  mkCustomerRow (next_customer_id t) None (name newCustomer)
                (formatPhone (phone newCustomer)) (email newCustomer)
                (Some (address newCustomer)).

Definition link_row (businessId : Z) (newCustomer : NewCustomer) (customerId : Z)
  : BusinessCustomer :=
  mkBusinessCustomer businessId customerId
                     (js_or (parseFloat (creditLimit newCustomer)) 0)
                     (parseInt (paymentTerms newCustomer)).

(** The storage calls are numbered as they are made: the link is the
    second call when the customer is known and the third when the
    customer had to be created. *)
Definition handleAddCustomer (env : Env) (businessId : Z) (newCustomer : NewCustomer)
           (t : Tables) (d : DB) : Tables * DB * Outcome :=
  let formattedPhone := formatPhone (phone newCustomer) in
  let existingCustomer :=
    match fault env 0 with
    | None => single (filter (fun c => (phone_number c =? formattedPhone)%string) (customers t))
    | Some _ => None
    end in
  let link (call : nat) (t' : Tables) (customerId : Z) :=
    match fault env call with
    | Some message => (t', d, Alert (String.append "Error linking customer: " message))
    | None => (t', insert_link (link_row businessId newCustomer customerId) d, Silent)
    end in
  match existingCustomer with
  | None =>
      match fault env 1 with
      | Some message => (t, d, Alert (String.append "Error creating customer: " message))
      | None =>
          let newCustomerData := customer_row newCustomer t in
          link 2%nat (insert_customer newCustomerData t) (cust_id newCustomerData)
      end
  | Some c => link 1%nat t (cust_id c)
  end.

End Handlers.

(** The total the create-invoice form displays under its rows. *)
Definition previewTotal (parseFloat : string -> Z) (invoiceItems : list Business.FormRow) : Z :=
  fold_left (fun sum item =>
               let qty := js_or (Some (parseFloat (Business.row_quantity item))) 0 in
               let price := js_or (Some (parseFloat (Business.row_unit_price item))) 0 in
               sum + qty * price)
            invoiceItems 0.

End BusinessAdmin.

(** ** The customer dashboard: entry and what is rendered *)

Module CustomerHome.
Import Store Accounts.

Inductive Landing :=
| Redirect (path : string)
| Shown (customer : CustomerRow) (page : Customer.Page).

Definition checkAuth (env : Env) (user : option Z) (t : Tables) (d : DB) : Landing :=
  match user with
  | None => Redirect "/login"
  | Some id =>
      let customerData :=
        match fault env 0 with
        | None => single (filter (fun c => owned_by id (cust_user_id c)) (customers t))
        | Some _ => None
        end in
      match customerData with
      | None => Redirect "/login"
      | Some c =>
          Shown c (Customer.loadData (shift 1 env) (cust_id c) d
                                     (Customer.mkPage (cust_id c) [] None false [] []))
      end
  end.

(** The three summary cards. *)
Definition totalInvoices (p : Customer.Page) : nat :=
  List.length (Customer.shown_invoices p).

Definition unpaid (inv : InvoiceView) : bool :=
  negb (invoice_status_eqb (status (view_invoice inv)) paid).

(** The same test on a stored row. *)
Definition owing (inv : Invoice) : bool := negb (invoice_status_eqb (status inv) paid).

Definition pendingPayment (p : Customer.Page) : nat :=
  List.length (filter unpaid (Customer.shown_invoices p)).

(** The [reduce] of the "Total Due" card, from 0 and in the order shown;
    the amounts are exact numbers. *)
Definition totalDue (p : Customer.Page) : Z :=
  fold_left (fun sum inv => sum + total_amount (view_invoice inv))
            (filter unpaid (Customer.shown_invoices p)) 0.

(** One edit typed in the modal: index, field, text. *)
Definition typing (parseFloat : string -> Z) (p : Customer.Page) (e : nat * Field * string)
  : Customer.Page :=
  Customer.updateEditedItem parseFloat (fst (fst e)) (snd (fst e)) (snd e) p.

(** "New Total" of the edit modal. *)
Definition newTotal (p : Customer.Page) : Z :=
  fold_left (fun sum item => sum + js_or (Some (total_price item)) 0)
            (Customer.editedItems p) 0.

End CustomerHome.

(** ** A directory for worked examples *)

Module Fixtures.
Import Store Accounts.

(** A reading of numerals in which a blank or unreadable text is NaN. *)
Definition parse_number (s : string) : option Z :=
  if (s =? "")%string then None
  else match NilEmpty.int_of_string s with
       | Some i => Some (Z.of_int i)
       | None => None
       end.

(** Acme's owner is user 100; Asha signed up as user 200 and typed her
    phone without a country code. *)
Definition directory : Tables :=
  mkTables [mkCustomerRow 7 (Some 200) "Asha" "9876543210" "asha@mail.test" None]
           [mkBusinessRow 1 100 "Acme" "owner@acme.test" "+911111111111" "GST-1"]
           [mkRoleRow 100 "business"; mkRoleRow 200 "customer"].

(** What Acme types to register Asha, with terms of 45 days. *)
Definition asha_form : BusinessAdmin.NewCustomer :=
  BusinessAdmin.mkNewCustomer "9876543210" "Asha" "" "" "5000" "45".

Definition no_env : Env := mkEnv no_fault (fun _ => 1700000000000).

Definition all_failing : Env :=
  mkEnv (fun _ => Some "timeout"%string) (fun _ => 1700000000000).

Definition only_failing (k : nat) : Env :=
  mkEnv (fun i => if Nat.eqb i k then Some "timeout"%string else None)
        (fun _ => 1700000000000).

End Fixtures.

(** The row that an update by key rewrites is in the table rewritten. *)
Ltac updated_row row Hin :=
  apply in_map_iff; exists row; split; [rewrite Z.eqb_refl; reflexivity | exact Hin].

(** ** Checks of the scenario *)

Section ScenarioChecks.
Import Store Ledger Scenario.

Example invoiced_db :
  invoiced =
  mkDB [mkBusinessCustomer 1 7 0 (Some 15)]
       [mkInvoice 1 1 7 "INV-1700000000000" 19000 19015 20 0 sent None]
       [mkLineItem 1 "Widget" 2 10 20] [] [].
Proof. reflexivity. Qed.

Example shown_request_is_widget_request : shown_request = Some widget_request.
Proof. reflexivity. Qed.

Example approved_db :
  fst (Business.approveClick calm widget_request requested) =
  mkDB [mkBusinessCustomer 1 7 0 (Some 15)]
       [mkInvoice 1 1 7 "INV-1700000000000" 19000 19015 30 0 sent (Some 1700000000000)]
       [mkLineItem 1 "Widget" 3 10 30]
       [mkEditRequest 1 1 7 [mkLineItem 1 "Widget" 2 10 20] [mkLineItem 1 "Widget" 3 10 30]
                      approved (Some 1700000000000)]
       [].
Proof. reflexivity. Qed.

Example rejected_db :
  fst (Business.rejectClick calm widget_request requested) =
  mkDB [mkBusinessCustomer 1 7 0 (Some 15)]
       [mkInvoice 1 1 7 "INV-1700000000000" 19000 19015 20 0 sent None]
       [mkLineItem 1 "Widget" 2 10 20]
       [mkEditRequest 1 1 7 [mkLineItem 1 "Widget" 2 10 20] [mkLineItem 1 "Widget" 3 10 30]
                      rejected (Some 1700000000000)]
       [].
Proof. reflexivity. Qed.

End ScenarioChecks.

(** ** Sums and table reads *)

Section Sums.
Import Store Ledger.

Lemma fold_sum_shift {A : Type} (f : A -> Z) (l : list A) (a : Z) :
  fold_left (fun sum x => sum + f x) l a = a + fold_left (fun sum x => sum + f x) l 0.
Proof.
  revert a; induction l as [|x l IH]; intro a; simpl.
  - lia.
  - rewrite IH, (IH (f x)). lia.
Qed.


Lemma fold_sum_ext {A : Type} (f g : A -> Z) (l : list A) (a : Z) :
  Forall (fun x => f x = g x) l ->
  fold_left (fun sum x => sum + f x) l a = fold_left (fun sum x => sum + g x) l a.
Proof.
  intro H; revert a; induction H as [|x l Hx _ IH]; intro a; simpl.
  - reflexivity.
  - rewrite Hx; apply IH.
Qed.

Lemma price_sum_well_priced (l : list LineItem) :
  Forall well_priced l -> price_sum l = line_sum l.
Proof. intro H; unfold price_sum, line_sum; apply fold_sum_ext; exact H. Qed.

Lemma filter_none {A : Type} (f : A -> bool) (l : list A) :
  (forall x, In x l -> f x = false) -> filter f l = [].
Proof.
  induction l as [|x l IH]; intro H; simpl; [reflexivity|].
  rewrite (H x (or_introl eq_refl)); apply IH; intros y Hy; apply H; right; exact Hy.
Qed.

Lemma filter_all {A : Type} (f : A -> bool) (l : list A) :
  (forall x, In x l -> f x = true) -> filter f l = l.
Proof.
  induction l as [|x l IH]; intro H; simpl; [reflexivity|].
  rewrite (H x (or_introl eq_refl)); f_equal; apply IH; intros y Hy; apply H; right; exact Hy.
Qed.

Lemma max_id_bound (ids : list Z) (x : Z) : In x ids -> x <= max_id ids.
Proof.
  induction ids as [|y ids IH]; simpl; [tauto|].
  intros [->|H]; [lia | specialize (IH H); lia].
Qed.


Lemma next_invoice_id_unused_by_items (d : DB) (item : LineItem) :
  In item (invoice_items d) -> invoice_id item < next_invoice_id d.
Proof.
  intro H; unfold next_invoice_id.
  assert (invoice_id item <= max_id (map inv_id (invoices d) ++ map invoice_id (invoice_items d))).
  { apply max_id_bound, in_or_app; right; apply in_map; exact H. }
  lia.
Qed.

Lemma items_of_next_invoice_id (d : DB) : items_of d (next_invoice_id d) = [].
Proof.
  unfold items_of; apply filter_none; intros item H.
  apply next_invoice_id_unused_by_items in H; apply Z.eqb_neq; lia.
Qed.

(** The rows an approval inserts, and the ones a creation inserts, all
    carry the invoice's key. *)
Lemma filter_same_key {A : Type} (g : A -> LineItem) (l : list A) (k : Z) :
  (forall x, invoice_id (g x) = k) ->
  filter (fun it => invoice_id it =? k) (map g l) = map g l.
Proof.
  intro H; apply filter_all; intros it Hit.
  apply in_map_iff in Hit; destruct Hit as [x [<- _]]; rewrite H; apply Z.eqb_refl.
Qed.

Lemma filter_other_key {A : Type} (g : A -> LineItem) (l : list A) (k k' : Z) :
  (forall x, invoice_id (g x) = k) -> k' <> k ->
  filter (fun it => invoice_id it =? k') (map g l) = [].
Proof.
  intros H Hk; apply filter_none; intros it Hit.
  apply in_map_iff in Hit; destruct Hit as [x [<- _]]; rewrite H; apply Z.eqb_neq; congruence.
Qed.

Lemma items_of_delete_same (d : DB) (k : Z) : items_of (delete_items k d) k = [].
Proof.
  unfold items_of, delete_items; simpl; apply filter_none; intros it Hit.
  apply filter_In in Hit; destruct Hit as [_ Hit].
  destruct (invoice_id it =? k); [discriminate | reflexivity].
Qed.

Lemma items_of_delete_other (d : DB) (k k' : Z) :
  k' <> k -> items_of (delete_items k d) k' = items_of d k'.
Proof.
  intro Hk; unfold items_of, delete_items; simpl.
  induction (invoice_items d) as [|it l IH]; simpl; [reflexivity|].
  destruct (invoice_id it =? k) eqn:E; simpl.
  - apply Z.eqb_eq in E.
    replace (invoice_id it =? k') with false by (symmetry; apply Z.eqb_neq; congruence).
    exact IH.
  - destruct (invoice_id it =? k'); [f_equal|]; exact IH.
Qed.

Lemma items_of_insert (d : DB) (rows : list LineItem) (k : Z) :
  items_of (insert_items rows d) k
  = items_of d k ++ filter (fun it => invoice_id it =? k) rows.
Proof. unfold items_of, insert_items; simpl; apply filter_app. Qed.

End Sums.

(** ** The ledger invariant is kept by every handler that succeeds *)

Section Invariant.
Import Store Ledger.

Variable parseFloat : string -> Z.

Lemma in_update_invoices (k : Z) (f : Invoice -> Invoice) (d : DB) (inv' : Invoice) :
  In inv' (invoices (update_invoices k f d)) ->
  exists inv, In inv (invoices d)
              /\ inv' = (if inv_id inv =? k then f inv else inv).
Proof.
  unfold update_invoices; simpl; intro H.
  apply in_map_iff in H; destruct H as [inv [E H]]; exists inv; split; [exact H | congruence].
Qed.

Lemma in_update_requests (k : Z) (f : EditRequest -> EditRequest) (d : DB) (r' : EditRequest) :
  In r' (invoice_edit_requests (update_requests k f d)) ->
  exists r, In r (invoice_edit_requests d)
            /\ r' = (if req_id r =? k then f r else r).
Proof.
  unfold update_requests; simpl; intro H.
  apply in_map_iff in H; destruct H as [r [E H]]; exists r; split; [exact H | congruence].
Qed.

Lemma empty_db_consistent : consistent empty_db.
Proof.
  repeat split; [intros inv [] | constructor | intros r []].
Qed.




Lemma rejectEditRequest_consistent env requestId d :
  consistent d -> consistent (fst (Business.rejectEditRequest env requestId d)).
Proof.
  intros [Hl [Hi Hr]]; unfold Business.rejectEditRequest; cbn [fst].
  destruct (fault env 0%nat); cbn [attempt]; repeat split; try assumption.
  intros r' Hr'; apply in_update_requests in Hr'; destruct Hr' as [r0 [Hr0 ->]].
  destruct (req_id r0 =? requestId); cbn; apply Hr; exact Hr0.
Qed.

(** *** The customer's side: what a page holds stays well priced *)

Lemma loadData_page_ok env customerId d p :
  consistent d -> page_ok p -> page_ok (Customer.loadData env customerId d p).
Proof.
  intros [_ [Hi _]] [He _]; split; [exact He|].
  unfold Customer.loadData; cbn [Customer.shown_invoices].
  intros inv Hin; destruct (fault env 0%nat); cbn in Hin; [contradiction|].
  apply in_map_iff in Hin; destruct Hin as [row [<- _]]; cbn [items with_items].
  apply Forall_forall; intros it Hit; apply filter_In in Hit.
  rewrite Forall_forall in Hi; apply Hi; tauto.
Qed.

Lemma openEditModal_page_ok invoice p :
  page_ok p -> In invoice (Customer.shown_invoices p) ->
  page_ok (Customer.openEditModal invoice p).
Proof.
  intros [_ Hs] Hin; split; [apply Hs; exact Hin | exact Hs].
Qed.

Lemma recalculate_well_priced field value item :
  well_priced item ->
  well_priced (Customer.recalculate field (Customer.set_item_field parseFloat field value item)).
Proof.
  unfold well_priced; intro H; destruct field; cbn; [exact H | |].
  - destruct (parseFloat value =? 0) eqn:E1, (unit_price item =? 0) eqn:E2;
      rewrite ?Z.eqb_eq in *; nia.
  - destruct (quantity item =? 0) eqn:E1, (parseFloat value =? 0) eqn:E2;
      rewrite ?Z.eqb_eq in *; nia.
Qed.

Lemma update_at_Forall {A : Type} (P : A -> Prop) (f : A -> A) (index : nat) (l : list A) :
  (forall x, P x -> P (f x)) -> Forall P l -> Forall P (update_at index f l).
Proof.
  intros Hf H; revert index; induction H as [|x l Hx Hl IH]; intro index.
  - destruct index; constructor.
  - destruct index; simpl; constructor; auto.
Qed.

Lemma updateEditedItem_page_ok index field value p :
  page_ok p -> page_ok (Customer.updateEditedItem parseFloat index field value p).
Proof.
  intros [He Hs]; split; [|exact Hs].
  unfold Customer.updateEditedItem; cbn [Customer.editedItems].
  apply update_at_Forall; [|exact He].
  intros item; apply recalculate_well_priced.
Qed.

Lemma submitEditRequest_consistent env p d :
  consistent d -> page_ok p ->
  consistent (fst (fst (Customer.submitEditRequest env p d)))
  /\ page_ok (snd (fst (Customer.submitEditRequest env p d))).
Proof.
  intros Hd Hp; unfold Customer.submitEditRequest.
  destruct (Customer.selectedInvoice p) as [invoice|]; [|split; assumption].
  destruct (fault env 0%nat); cbn [fst snd]; [split; assumption|].
  destruct Hd as [Hl [Hi Hr]], Hp as [He Hs]; split.
  - repeat split; [exact Hl | exact Hi |].
    intros r Hin; cbn in Hin; apply in_app_or in Hin; destruct Hin as [Hin | [<- | []]].
    + apply Hr; exact Hin.
    + exact He.
  - split; [constructor | exact Hs].
Qed.

End Invariant.

(** ** The ledger after a mutation *)

Section LedgerTotals.
Import Store Ledger.



End LedgerTotals.

(** ** Review of edit requests *)

Section Review.
Import Store Ledger.

Lemma line_of_retarget (k : Z) (l : list LineItem) :
  map line_of
      (map (fun item => mkLineItem k (item_name item) (quantity item) (unit_price item)
                                   (total_price item)) l)
  = map line_of l.
Proof. rewrite map_map; apply map_ext; intros item; reflexivity. Qed.

(** What a fully successful approval leaves in the tables. *)
Lemma approveEditRequest_effect env requestId invoiceId requestedItems d :
  succeeds env ->
  let d' := fst (Business.approveEditRequest env requestId invoiceId requestedItems d) in
  items_of d' invoiceId
  = map (fun item => mkLineItem invoiceId (item_name item) (quantity item) (unit_price item)
                                (total_price item)) requestedItems
  /\ invoices d'
     = map (fun inv => if inv_id inv =? invoiceId
                       then set_total (price_sum requestedItems) (clock env 0%nat) inv
                       else inv) (invoices d)
  /\ invoice_edit_requests d'
     = map (fun r => if req_id r =? requestId
                     then set_reviewed approved (clock env 1%nat) r
                     else r) (invoice_edit_requests d)
  /\ payments d' = payments d.
Proof.
  intros Hs d'; subst d'; unfold Business.approveEditRequest.
  rewrite !Hs; cbn [fst attempt].
  repeat split.
  change (items_of (update_requests _ _ (update_invoices _ _ ?x))) with (items_of x).
  rewrite items_of_insert, items_of_delete_same; cbn [app].
  apply filter_same_key; reflexivity.
Qed.

(** C7.  A customer whose page has an invoice of [d] selected and holds
    the well-priced items [A] submits; the request stored is pending and
    proposes [A]; once the business approves it with every storage call
    succeeding, the invoice's items are those of [A] and its total is the
    sum over [A] of quantity times unit price. *)
Theorem submit_then_approve_round_trip env1 env2 p d inv invoice A :
  In inv (invoices d) -> status inv <> paid ->
  Customer.selectedInvoice p = Some invoice ->
  inv_id (view_invoice invoice) = inv_id inv ->
  Customer.editedItems p = A ->
  Forall well_priced A ->
  fault env1 0%nat = None -> succeeds env2 ->
  exists r,
    invoice_edit_requests (fst (fst (Customer.submitEditRequest env1 p d)))
    = invoice_edit_requests d ++ [r]
    /\ req_status r = pending
    /\ requested_items r = A
    /\ let d2 := fst (Business.approveClick env2 r (fst (fst (Customer.submitEditRequest env1 p d)))) in
       map line_of (items_of d2 (inv_id inv)) = map line_of A
       /\ In (set_total (line_sum A) (clock env2 0%nat) inv) (invoices d2)
       /\ (forall inv', In inv' (invoices d2) -> inv_id inv' = inv_id inv ->
                        total_amount inv' = line_sum A).
Proof.
  intros Hin _ Hsel Hid HA Hw F1 Hs.
  unfold Customer.submitEditRequest; rewrite Hsel, F1; cbn [fst].
  eexists; split; [reflexivity|].
  cbn [req_status requested_items]; rewrite HA, Hid.
  split; [reflexivity | split; [reflexivity|]].
  unfold Business.approveClick; cbn [req_id req_invoice_id requested_items].
  match goal with
  | |- context [Business.approveEditRequest ?e ?q ?k ?l ?x] =>
      destruct (approveEditRequest_effect e q k l x Hs) as [Hitems [Hinv _]]
  end.
  rewrite Hitems, Hinv, (price_sum_well_priced A Hw).
  cbn [invoices insert_request].
  split; [apply line_of_retarget | split].
  - updated_row inv Hin.
  - intros inv' Hin' Hid'; apply in_map_iff in Hin'; destruct Hin' as [inv0 [<- _]].
    destruct (inv_id inv0 =? inv_id inv) eqn:E; [reflexivity|].
    apply Z.eqb_neq in E; contradiction.
Qed.

Lemma submit_then_approve_round_trip_witness :
  exists r,
    invoice_edit_requests
      (fst (fst (Customer.submitEditRequest calm Scenario.editing_page Scenario.invoiced)))
    = invoice_edit_requests Scenario.invoiced ++ [r]
    /\ req_status r = pending
    /\ requested_items r = [mkLineItem 1 "Widget" 3 10 30]
    /\ let d2 :=
         fst (Business.approveClick
                calm r
                (fst (fst (Customer.submitEditRequest calm Scenario.editing_page
                                                      Scenario.invoiced)))) in
       map line_of (items_of d2 1) = map line_of [mkLineItem 1 "Widget" 3 10 30]
       /\ In (set_total 30 1700000000000
                        (mkInvoice 1 1 7 "INV-1700000000000" 19000 19015 20 0 sent None))
             (invoices d2)
       /\ (forall inv', In inv' (invoices d2) -> inv_id inv' = 1 -> total_amount inv' = 30).
Proof.
  apply (submit_then_approve_round_trip
           calm calm Scenario.editing_page Scenario.invoiced
           (mkInvoice 1 1 7 "INV-1700000000000" 19000 19015 20 0 sent None)
           (mkInvoiceView (mkInvoice 1 1 7 "INV-1700000000000" 19000 19015 20 0 sent None)
                          [mkLineItem 1 "Widget" 2 10 20])
           [mkLineItem 1 "Widget" 3 10 30]).
  - left; reflexivity.
  - discriminate.
  - reflexivity.
  - reflexivity.
  - reflexivity.
  - repeat constructor.
  - reflexivity.
  - intro k; reflexivity.
Defined.

(** C8.  Rejecting a pending request never touches the ledger: the
    invoices, their items and the payments are the tables as they were,
    so every invoice keeps its items, total and status.  When the update
    call succeeds, the request is stored as rejected with the time of the
    call as its review timestamp, and so is every row with its key. *)
Theorem reject_leaves_invoice_unchanged env d r :
  In r (invoice_edit_requests d) -> req_status r = pending ->
  let d' := fst (Business.rejectClick env r d) in
  invoices d' = invoices d
  /\ invoice_items d' = invoice_items d
  /\ payments d' = payments d
  /\ (forall k, items_of d' k = items_of d k)
  /\ (fault env 0%nat = None ->
      In (set_reviewed rejected (clock env 0%nat) r) (invoice_edit_requests d')
      /\ forall r', In r' (invoice_edit_requests d') -> req_id r' = req_id r ->
                    req_status r' = rejected /\ reviewed_at r' = Some (clock env 0%nat)).
Proof.
  intros Hin _ d'; subst d'.
  unfold Business.rejectClick, Business.rejectEditRequest; cbn [fst].
  split; [destruct (fault env 0%nat); reflexivity|].
  split; [destruct (fault env 0%nat); reflexivity|].
  split; [destruct (fault env 0%nat); reflexivity|].
  split; [intro k; destruct (fault env 0%nat); reflexivity|].
  intro F; rewrite F; cbn [attempt invoice_edit_requests update_requests]; split.
  - updated_row r Hin.
  - intros r' Hr' Hid; apply in_map_iff in Hr'; destruct Hr' as [r0 [<- _]].
    destruct (req_id r0 =? req_id r) eqn:E; [split; reflexivity|].
    apply Z.eqb_neq in E; contradiction.
Qed.

Lemma reject_leaves_invoice_unchanged_witness :
  let d' := fst (Business.rejectClick calm Scenario.widget_request Scenario.requested) in
  invoices d' = invoices Scenario.requested
  /\ invoice_items d' = invoice_items Scenario.requested
  /\ payments d' = payments Scenario.requested
  /\ (forall k, items_of d' k = items_of Scenario.requested k)
  /\ In (set_reviewed rejected 1700000000000 Scenario.widget_request)
        (invoice_edit_requests d')
  /\ (forall r', In r' (invoice_edit_requests d') -> req_id r' = 1 ->
                 req_status r' = rejected /\ reviewed_at r' = Some 1700000000000).
Proof.
  assert (Hin : In Scenario.widget_request (invoice_edit_requests Scenario.requested))
    by (left; reflexivity).
  destruct (reject_leaves_invoice_unchanged calm Scenario.requested Scenario.widget_request
                                            Hin eq_refl)
    as [Hv [Hi [Hp [Hk Hr]]]].
  destruct (Hr eq_refl) as [Hr1 Hr2].
  repeat split; try assumption; apply Hr2; assumption.
Defined.

End Review.

(** ** The total and the items after a mutation *)

Section TotalsAfterMutation.
Import Store Ledger.




End TotalsAfterMutation.

(** ** What the business dashboard lists for review *)

Section Listing.
Import Store Ledger.

Lemma request_status_eqb_eq (a b : RequestStatus) :
  request_status_eqb a b = true <-> a = b.
Proof. destruct a, b; simpl; split; intro H; try reflexivity; discriminate. Qed.

Lemma invoice_status_eqb_eq (a b : InvoiceStatus) :
  invoice_status_eqb a b = true <-> a = b.
Proof. destruct a, b; simpl; split; intro H; try reflexivity; discriminate. Qed.

(** The keys of the invoices a select with filter [f] embeds. *)
Lemma shown_keys (d : DB) (f : Invoice -> bool) (k : Z) :
  existsb (Z.eqb k)
          (map (fun v => inv_id (view_invoice v))
               (map (with_items d) (rev (filter f (invoices d))))) = true
  <-> exists inv, In inv (invoices d) /\ f inv = true /\ inv_id inv = k.
Proof.
  rewrite existsb_exists; split.
  - intros [x [Hx E]]; apply Z.eqb_eq in E; subst x.
    apply in_map_iff in Hx; destruct Hx as [v [Hk Hv]].
    apply in_map_iff in Hv; destruct Hv as [inv [<- Hinv]].
    apply In_rev, filter_In in Hinv.
    exists inv; cbn in Hk; tauto.
  - intros [inv [Hin [Hf Hk]]]; exists k; split; [|apply Z.eqb_refl].
    apply in_map_iff; exists (with_items d inv); split; [exact Hk|].
    apply in_map, In_rev; rewrite rev_involutive; apply filter_In; tauto.
Qed.

Lemma listed_request_is_pending (businessId : Z) (d : DB) (env : Env) (r : EditRequest) :
  In r (Business.editRequests (Business.loadData env businessId d)) ->
  In r (invoice_edit_requests d)
  /\ req_status r = pending
  /\ exists inv, In inv (invoices d)
                 /\ business_id inv = businessId /\ inv_id inv = req_invoice_id r.
Proof.
  unfold Business.loadData; cbn [Business.editRequests].
  destruct (fault env 2%nat); cbn [query or_empty]; [intros []|].
  intro H; apply filter_In in H; destruct H as [Hin H].
  apply andb_true_iff in H; destruct H as [Hp Hk].
  apply request_status_eqb_eq in Hp.
  split; [exact Hin | split; [exact Hp|]].
  destruct (fault env 1%nat); cbn [query or_empty] in Hk; [discriminate|].
  apply shown_keys in Hk; destruct Hk as [inv [Hinv [Hb Hk]]].
  exists inv; apply Z.eqb_eq in Hb; tauto.
Qed.

(** C10.  Whatever the three selects of [loadData] return, a request it
    lists is a stored one that is pending and whose invoice is one of the
    business's; when the invoice and request selects succeed, every such
    request is listed; a request already approved or rejected is never
    listed.  The handlers behind the buttons look at no status: on any
    stored request, with storage working, approve stores it as approved
    and reject stores it as rejected. *)
Theorem loadData_lists_exactly_pending_requests (businessId : Z) (d : DB) :
  (forall env r,
      In r (Business.editRequests (Business.loadData env businessId d)) ->
      In r (invoice_edit_requests d)
      /\ req_status r = pending
      /\ exists inv, In inv (invoices d)
                     /\ business_id inv = businessId /\ inv_id inv = req_invoice_id r)
  /\ (forall env r,
         fault env 1%nat = None -> fault env 2%nat = None ->
         In r (invoice_edit_requests d) -> req_status r = pending ->
         (exists inv, In inv (invoices d)
                      /\ business_id inv = businessId /\ inv_id inv = req_invoice_id r) ->
         In r (Business.editRequests (Business.loadData env businessId d)))
  /\ (forall env r,
         req_status r <> pending ->
         ~ In r (Business.editRequests (Business.loadData env businessId d)))
  /\ (forall env r,
         In r (invoice_edit_requests d) -> succeeds env ->
         In (set_reviewed approved (clock env 1%nat) r)
            (invoice_edit_requests (fst (Business.approveClick env r d)))
         /\ In (set_reviewed rejected (clock env 0%nat) r)
               (invoice_edit_requests (fst (Business.rejectClick env r d)))).
Proof.
  assert (Listed := listed_request_is_pending businessId d).
  split; [exact Listed|].
  split; [|split].
  - intros env r F1 F2 Hin Hp [inv [Hinv [Hb Hk]]].
    unfold Business.loadData; cbn [Business.editRequests].
    rewrite F1, F2; cbn [query or_empty].
    apply filter_In; split; [exact Hin|].
    apply andb_true_iff; split; [apply request_status_eqb_eq; exact Hp|].
    apply shown_keys; exists inv; rewrite Z.eqb_eq; tauto.
  - intros env r Hp Hin; apply Listed in Hin; tauto.
  - intros env r Hin Hs; split.
    + unfold Business.approveClick.
      destruct (approveEditRequest_effect env (req_id r) (req_invoice_id r)
                                          (requested_items r) d Hs) as [_ [_ [Hr _]]].
      rewrite Hr; updated_row r Hin.
    + unfold Business.rejectClick, Business.rejectEditRequest; rewrite Hs.
      cbn [fst attempt invoice_edit_requests update_requests].
      updated_row r Hin.
Qed.

Lemma loadData_lists_exactly_pending_requests_witness :
  In Scenario.widget_request
     (Business.editRequests (Business.loadData calm 1 Scenario.requested))
  /\ ~ In (set_reviewed rejected 1700000000000 Scenario.widget_request)
          (Business.editRequests (Business.loadData calm 1 Scenario.turned_down))
  /\ In (set_reviewed approved 1700000600000
                      (set_reviewed rejected 1700000000000 Scenario.widget_request))
        (invoice_edit_requests
           (fst (Business.approveClick
                   Scenario.later
                   (set_reviewed rejected 1700000000000 Scenario.widget_request)
                   Scenario.turned_down))).
Proof.
  destruct (loadData_lists_exactly_pending_requests 1 Scenario.requested)
    as [_ [Listed _]].
  destruct (loadData_lists_exactly_pending_requests 1 Scenario.turned_down)
    as [_ [_ [Hidden Unguarded]]].
  split; [|split].
  - apply Listed.
    + reflexivity.
    + reflexivity.
    + left; reflexivity.
    + reflexivity.
    + exists (mkInvoice 1 1 7 "INV-1700000000000" 19000 19015 20 0 sent None).
      split; [left; reflexivity | split; reflexivity].
  - apply Hidden; discriminate.
  - apply (Unguarded Scenario.later
                     (set_reviewed rejected 1700000000000 Scenario.widget_request)).
    + left; reflexivity.
    + intro k; reflexivity.
Defined.

End Listing.

(** ** Approval: no guard on the status, no transaction *)

Section Approval.
Import Store Ledger.

(** C3, as stated, fails: the business rejects the widget request, then
    approves it from a dashboard that still shows it.  No error is shown,
    the invoice's item and total are replaced, and the request goes from
    rejected to approved with a new review timestamp. *)
Lemma approve_of_rejected_request_counterexample :
  invoice_edit_requests Scenario.turned_down
  = [mkEditRequest 1 1 7 [mkLineItem 1 "Widget" 2 10 20] [mkLineItem 1 "Widget" 3 10 30]
                   rejected (Some 1700000000000)]
  /\ Business.approveClick Scenario.later Scenario.widget_request Scenario.turned_down
     = (mkDB [mkBusinessCustomer 1 7 0 (Some 15)]
             [mkInvoice 1 1 7 "INV-1700000000000" 19000 19015 30 0 sent (Some 1700000600000)]
             [mkLineItem 1 "Widget" 3 10 30]
             [mkEditRequest 1 1 7 [mkLineItem 1 "Widget" 2 10 20]
                            [mkLineItem 1 "Widget" 3 10 30]
                            approved (Some 1700000600000)]
             [],
        Silent).
Proof. split; reflexivity. Qed.

(** C3, amended.  A stored request that is already approved or rejected
    is never among the requests [loadData] lists, so a freshly loaded
    dashboard has no Approve button for it.  The handler itself checks no
    status and shows no error: called on such a request with storage
    working, it stores the request as approved with the time of the call,
    replaces the invoice's items by the requested ones and sets the total
    to the sum of their [total_price]. *)
Theorem approve_checks_no_status (businessId : Z) (d : DB) (r : EditRequest) :
  In r (invoice_edit_requests d) -> req_status r <> pending ->
  (forall env, ~ In r (Business.editRequests (Business.loadData env businessId d)))
  /\ (forall env, snd (Business.approveClick env r d) = Silent)
  /\ (forall env, succeeds env ->
        let d' := fst (Business.approveClick env r d) in
        In (set_reviewed approved (clock env 1%nat) r) (invoice_edit_requests d')
        /\ map line_of (items_of d' (req_invoice_id r)) = map line_of (requested_items r)
        /\ forall inv', In inv' (invoices d') -> inv_id inv' = req_invoice_id r ->
                        total_amount inv' = price_sum (requested_items r)).
Proof.
  intros Hin Hp; split; [|split].
  - intros env Hl; apply listed_request_is_pending in Hl; tauto.
  - intro env; reflexivity.
  - intros env Hs d'; subst d'; unfold Business.approveClick.
    destruct (approveEditRequest_effect env (req_id r) (req_invoice_id r)
                                        (requested_items r) d Hs) as [Hi [Hv [Hr _]]].
    rewrite Hi, Hv, Hr; split; [|split].
    + updated_row r Hin.
    + apply line_of_retarget.
    + intros inv' Hin' Hid; apply in_map_iff in Hin'; destruct Hin' as [inv0 [<- _]].
      destruct (inv_id inv0 =? req_invoice_id r) eqn:E; [reflexivity|].
      apply Z.eqb_neq in E; contradiction.
Qed.

Lemma approve_checks_no_status_witness :
  let r := mkEditRequest 1 1 7 [mkLineItem 1 "Widget" 2 10 20] [mkLineItem 1 "Widget" 3 10 30]
                         rejected (Some 1700000000000) in
  ~ In r (Business.editRequests (Business.loadData calm 1 Scenario.turned_down))
  /\ snd (Business.approveClick Scenario.later r Scenario.turned_down) = Silent
  /\ (let d' := fst (Business.approveClick Scenario.later r Scenario.turned_down) in
      In (set_reviewed approved 1700000600000 r) (invoice_edit_requests d')
      /\ map line_of (items_of d' 1) = map line_of [mkLineItem 1 "Widget" 3 10 30]
      /\ forall inv', In inv' (invoices d') -> inv_id inv' = 1 -> total_amount inv' = 30).
Proof.
  intro r.
  assert (Hin : In r (invoice_edit_requests Scenario.turned_down)) by (left; reflexivity).
  assert (Hp : req_status r <> pending) by discriminate.
  destruct (approve_checks_no_status 1 Scenario.turned_down r Hin Hp) as [Hl [Ho He]].
  split; [apply Hl | split; [apply Ho|]].
  apply (He Scenario.later); intro k; reflexivity.
Defined.

(** C2, as stated, fails: when the insert of the replacement items
    returns an error, the old item is gone all the same, the total is the
    new one and the request is stored as approved. *)
Lemma approve_with_failed_insert_counterexample :
  Business.approveClick (failing_at 2) Scenario.widget_request Scenario.requested
  = (mkDB [mkBusinessCustomer 1 7 0 (Some 15)]
          [mkInvoice 1 1 7 "INV-1700000000000" 19000 19015 30 0 sent (Some 1700000000000)]
          []
          [mkEditRequest 1 1 7 [mkLineItem 1 "Widget" 2 10 20]
                         [mkLineItem 1 "Widget" 3 10 30]
                         approved (Some 1700000000000)]
          [],
     Silent)
  /\ items_of Scenario.requested 1 = [mkLineItem 1 "Widget" 2 10 20].
Proof. split; reflexivity. Qed.

(** C2, amended.  The delete, the insert, the update of the total and the
    update of the request are four storage calls of their own.  When all
    of them succeed, all their effects are there: the invoice's items are
    the requested ones, its total is the sum of their [total_price], the
    request is approved with its review timestamp, and no other row of
    these tables has changed.  When all of them fail, the tables are as
    they were. *)
Theorem approve_all_writes_or_none (env : Env) (d : DB) (r : EditRequest) :
  In r (invoice_edit_requests d) ->
  (succeeds env ->
   let d' := fst (Business.approveClick env r d) in
   map line_of (items_of d' (req_invoice_id r)) = map line_of (requested_items r)
   /\ (forall k, k <> req_invoice_id r -> items_of d' k = items_of d k)
   /\ invoices d'
      = map (fun inv => if inv_id inv =? req_invoice_id r
                        then set_total (price_sum (requested_items r)) (clock env 0%nat) inv
                        else inv) (invoices d)
   /\ In (set_reviewed approved (clock env 1%nat) r) (invoice_edit_requests d')
   /\ (forall r', In r' (invoice_edit_requests d') -> req_id r' <> req_id r ->
                  In r' (invoice_edit_requests d)))
  /\ ((forall k, fault env k <> None) -> fst (Business.approveClick env r d) = d).
Proof.
  intro Hin; split.
  - intros Hs d'; subst d'; unfold Business.approveClick.
    destruct (approveEditRequest_effect env (req_id r) (req_invoice_id r)
                                        (requested_items r) d Hs) as [Hi [Hv [Hr _]]].
    rewrite Hi, Hv, Hr; split; [apply line_of_retarget|].
    split; [|split; [reflexivity|split]].
    + intros k Hk; unfold Business.approveEditRequest; rewrite !Hs; cbn [fst attempt].
      change (items_of (update_requests _ _ (update_invoices _ _ ?x))) with (items_of x).
      rewrite items_of_insert, (items_of_delete_other d (req_invoice_id r) k Hk).
      rewrite filter_other_key with (k := req_invoice_id r); [apply app_nil_r | reflexivity | exact Hk].
    + updated_row r Hin.
    + intros r' Hr' Hid; apply in_map_iff in Hr'; destruct Hr' as [r0 [<- Hr0]].
      destruct (req_id r0 =? req_id r) eqn:E; [|exact Hr0].
      apply Z.eqb_eq in E; cbn in Hid; contradiction.
  - intro Hf; unfold Business.approveClick, Business.approveEditRequest; cbn [fst].
    destruct (fault env 1%nat) eqn:F1; [|elim (Hf _ F1)].
    destruct (fault env 2%nat) eqn:F2; [|elim (Hf _ F2)].
    destruct (fault env 3%nat) eqn:F3; [|elim (Hf _ F3)].
    destruct (fault env 4%nat) eqn:F4; [|elim (Hf _ F4)].
    reflexivity.
Qed.

Lemma approve_all_writes_or_none_witness :
  (let d' := fst (Business.approveClick calm Scenario.widget_request Scenario.requested) in
   map line_of (items_of d' 1) = map line_of [mkLineItem 1 "Widget" 3 10 30]
   /\ (forall k, k <> 1 -> items_of d' k = items_of Scenario.requested k)
   /\ invoices d'
      = [mkInvoice 1 1 7 "INV-1700000000000" 19000 19015 30 0 sent (Some 1700000000000)]
   /\ In (set_reviewed approved 1700000000000 Scenario.widget_request)
         (invoice_edit_requests d')
   /\ (forall r', In r' (invoice_edit_requests d') -> req_id r' <> 1 ->
                  In r' (invoice_edit_requests Scenario.requested)))
  /\ fst (Business.approveClick outage Scenario.widget_request Scenario.requested)
     = Scenario.requested.
Proof.
  assert (Hin : In Scenario.widget_request (invoice_edit_requests Scenario.requested))
    by (left; reflexivity).
  split.
  - destruct (approve_all_writes_or_none calm Scenario.requested Scenario.widget_request Hin)
      as [Hall _].
    apply Hall; intro k; reflexivity.
  - destruct (approve_all_writes_or_none outage Scenario.requested Scenario.widget_request Hin)
      as [_ Hnone].
    apply Hnone; intro k; discriminate.
Defined.

End Approval.

(** ** Payment, submission and creation: what the handlers check *)

Section Guards.
Import Store Ledger.

(** C4, as stated, fails: the business marks the widget invoice paid and
    clicks "Mark Paid" again on a dashboard that has not reloaded.  The
    second call shows no error and records a second payment. *)
Lemma mark_paid_twice_counterexample :
  map status (invoices Scenario.paid_once) = [paid]
  /\ payments Scenario.paid_once = [mkPayment 1 20 19675 "Manual"]
  /\ Business.markPaidClick Scenario.later Scenario.widget_view Scenario.paid_once
     = (mkDB [mkBusinessCustomer 1 7 0 (Some 15)]
             [mkInvoice 1 1 7 "INV-1700000000000" 19000 19015 20 20 paid None]
             [mkLineItem 1 "Widget" 2 10 20]
             []
             [mkPayment 1 20 19675 "Manual"; mkPayment 1 20 19675 "Manual"],
        Silent).
Proof. repeat split. Qed.

(** C4, amended.  "Mark Paid" is not rendered for an invoice whose loaded
    status is paid.  The handler itself checks no status: called on a
    stored invoice that is already paid, with the update succeeding, it
    shows no error, leaves the status paid, sets [paid_amount] to the
    amount passed, and, when the insert succeeds too, appends one more
    payment entry. *)
Theorem markAsPaid_checks_no_status (d : DB) (inv : Invoice) :
  In inv (invoices d) -> status inv = paid ->
  (forall its, Business.markPaidOffered (mkInvoiceView inv its) = false)
  /\ (forall env amount,
         fault env 0%nat = None ->
         let d' := fst (Business.markAsPaid env (inv_id inv) amount d) in
         snd (Business.markAsPaid env (inv_id inv) amount d) = Silent
         /\ In (set_paid amount inv) (invoices d')
         /\ (forall inv', In inv' (invoices d') -> inv_id inv' = inv_id inv ->
                          status inv' = paid /\ paid_amount inv' = amount)
         /\ (fault env 1%nat = None ->
             payments d'
             = payments d ++ [mkPayment (inv_id inv) amount (day_of (clock env 0%nat)) "Manual"])).
Proof.
  intros Hin Hp; split.
  - intro its; unfold Business.markPaidOffered; cbn [view_invoice]; rewrite Hp; reflexivity.
  - intros env amount F0 d'; subst d'; unfold Business.markAsPaid; rewrite F0; cbn [fst snd].
    split; [reflexivity|].
    split; [|split].
    + destruct (fault env 1%nat); cbn [attempt invoices insert_payment update_invoices];
        updated_row inv Hin.
    + intros inv' Hin' Hid.
      assert (H : In inv' (invoices (update_invoices (inv_id inv) (set_paid amount) d)))
        by (destruct (fault env 1%nat); exact Hin').
      apply in_update_invoices in H; destruct H as [inv0 [_ ->]].
      destruct (inv_id inv0 =? inv_id inv) eqn:E; [split; reflexivity|].
      apply Z.eqb_neq in E; contradiction.
    + intro F1; rewrite F1; reflexivity.
Qed.

Lemma markAsPaid_checks_no_status_witness :
  Business.markPaidOffered
    (mkInvoiceView (mkInvoice 1 1 7 "INV-1700000000000" 19000 19015 20 20 paid None)
                   [mkLineItem 1 "Widget" 2 10 20]) = false
  /\ (let d' := fst (Business.markAsPaid Scenario.later 1 20 Scenario.paid_once) in
      snd (Business.markAsPaid Scenario.later 1 20 Scenario.paid_once) = Silent
      /\ In (mkInvoice 1 1 7 "INV-1700000000000" 19000 19015 20 20 paid None) (invoices d')
      /\ (forall inv', In inv' (invoices d') -> inv_id inv' = 1 ->
                       status inv' = paid /\ paid_amount inv' = 20)
      /\ payments d' = payments Scenario.paid_once ++ [mkPayment 1 20 19675 "Manual"]).
Proof.
  assert (Hin : In (mkInvoice 1 1 7 "INV-1700000000000" 19000 19015 20 20 paid None)
                   (invoices Scenario.paid_once)) by (left; reflexivity).
  destruct (markAsPaid_checks_no_status Scenario.paid_once _ Hin eq_refl) as [Ho Hm].
  split; [apply Ho|].
  destruct (Hm Scenario.later 20 eq_refl) as [H1 [H2 [H3 H4]]].
  split; [exact H1 | split; [exact H2 | split; [exact H3 | exact (H4 eq_refl)]]].
Defined.

(** C5, as stated, fails: the customer opens the edit modal while the
    invoice is still unpaid, the business marks it paid, the customer
    submits.  The success message is shown and a request is stored. *)
Lemma submit_against_paid_invoice_counterexample :
  map status (invoices Scenario.paid_once) = [paid]
  /\ invoice_edit_requests Scenario.paid_once = []
  /\ Customer.submitEditRequest calm Scenario.editing_page Scenario.paid_once
     = (mkDB [mkBusinessCustomer 1 7 0 (Some 15)]
             [mkInvoice 1 1 7 "INV-1700000000000" 19000 19015 20 20 paid None]
             [mkLineItem 1 "Widget" 2 10 20]
             [mkEditRequest 1 1 7 [mkLineItem 1 "Widget" 2 10 20]
                            [mkLineItem 1 "Widget" 3 10 30] pending None]
             [mkPayment 1 20 19675 "Manual"],
        Customer.mkPage 7 [Scenario.widget_view] None false [] [],
        Alert "Edit request submitted successfully!").
Proof. repeat split. Qed.

(** C5, amended.  "Request Edit" is not rendered for an invoice whose
    loaded status is paid.  The handler itself reads no invoice status:
    with an invoice selected and the insert succeeding it stores one
    pending request for that invoice, proposing the edited items, leaves
    every other table as it was, and shows the success message. *)
Theorem submitEditRequest_checks_no_status (env : Env) (p : Customer.Page) (d : DB)
        (invoice : InvoiceView) :
  Customer.selectedInvoice p = Some invoice -> fault env 0%nat = None ->
  (status (view_invoice invoice) = paid -> Customer.requestEditOffered invoice = false)
  /\ Customer.submitEditRequest env p d
     = (mkDB (business_customers d) (invoices d) (invoice_items d)
             (invoice_edit_requests d
              ++ [mkEditRequest (next_request_id d) (inv_id (view_invoice invoice))
                                (Customer.customer p) (items invoice)
                                (Customer.editedItems p) pending None])
             (payments d),
        Customer.mkPage (Customer.customer p) (Customer.shown_invoices p) None false []
                        (Customer.myRequests p),
        Alert "Edit request submitted successfully!").
Proof.
  intros Hsel F0; split.
  - intro Hp; unfold Customer.requestEditOffered; rewrite Hp; reflexivity.
  - unfold Customer.submitEditRequest; rewrite Hsel, F0; reflexivity.
Qed.

Lemma submitEditRequest_checks_no_status_witness :
  Customer.requestEditOffered
    (mkInvoiceView (mkInvoice 1 1 7 "INV-1700000000000" 19000 19015 20 20 paid None)
                   [mkLineItem 1 "Widget" 2 10 20]) = false
  /\ invoice_edit_requests
       (fst (fst (Customer.submitEditRequest calm Scenario.editing_page Scenario.paid_once)))
     = [mkEditRequest 1 1 7 [mkLineItem 1 "Widget" 2 10 20]
                      [mkLineItem 1 "Widget" 3 10 30] pending None].
Proof.
  split.
  - set (v := mkInvoiceView (mkInvoice 1 1 7 "INV-1700000000000" 19000 19015 20 20 paid None)
                            [mkLineItem 1 "Widget" 2 10 20]).
    destruct (submitEditRequest_checks_no_status
                calm (Customer.mkPage 7 [] (Some v) true [] []) empty_db v eq_refl eq_refl)
      as [Ho _].
    apply Ho; reflexivity.
  - destruct (submitEditRequest_checks_no_status
                calm Scenario.editing_page Scenario.paid_once Scenario.widget_view
                eq_refl eq_refl) as [_ Hs].
    rewrite Hs; reflexivity.
Defined.

End Guards.

(** ** Invoice creation: validation and the due date *)

Section Creation.
Import Store Ledger.

Lemma remove_at_length {A : Type} (index : nat) (l : list A) :
  (List.length l <= S (List.length (remove_at index l)))%nat.
Proof.
  revert index; induction l as [|x l IH]; intro index; simpl; [lia|].
  destruct index; simpl; [lia | specialize (IH index); lia].
Qed.

Lemma update_at_length {A : Type} (index : nat) (f : A -> A) (l : list A) :
  List.length (update_at index f l) = List.length l.
Proof.
  revert index; induction l as [|x l IH]; intro index; destruct index; simpl;
    try reflexivity.
  rewrite IH; reflexivity.
Qed.

Lemma form_step_keeps_a_row (rows : list Business.FormRow) (a : Business.FormAction) :
  (0 < List.length rows)%nat -> (0 < List.length (Business.form_step rows a))%nat.
Proof.
  intro H; destruct a as [|index|index field value|]; simpl.
  - unfold Business.addInvoiceItem; rewrite length_app; simpl; lia.
  - unfold Business.removeOffered, Business.removeInvoiceItem.
    destruct (1 <? List.length rows)%nat eqn:E; [|exact H].
    apply Nat.ltb_lt in E; pose proof (remove_at_length index rows); lia.
  - unfold Business.updateInvoiceItem; rewrite update_at_length; exact H.
  - lia.
Qed.

Lemma form_never_empty (actions : list Business.FormAction) :
  fold_left Business.form_step actions Business.initial_rows <> [].
Proof.
  assert (H : forall rows, (0 < List.length rows)%nat ->
                           (0 < List.length (fold_left Business.form_step actions rows))%nat).
  { induction actions as [|a actions IH]; intros rows Hr; simpl; [exact Hr|].
    apply IH, form_step_keeps_a_row, Hr. }
  intro E; specialize (H Business.initial_rows); rewrite E in H; simpl in H; lia.
Qed.

(** C6, as stated, fails.  With no row at all the invoice is stored, with
    total 0, whether or not the insert of its (no) items then succeeds;
    with a quantity of -2 the handler shows no error and stores the
    invoice and its item, with totals of -20. *)
Lemma create_without_validation_counterexample :
  invoices (fst (Business.handleCreateInvoice parse_decimal calm 1 7 19000 [] Scenario.linked))
  = [mkInvoice 1 1 7 "INV-1700000000000" 19000 19015 0 0 sent None]
  /\ invoices (fst (Business.handleCreateInvoice parse_decimal (failing_at 2) 1 7 19000 []
                                                 Scenario.linked))
     = [mkInvoice 1 1 7 "INV-1700000000000" 19000 19015 0 0 sent None]
  /\ Business.handleCreateInvoice parse_decimal calm 1 7 19000 Scenario.negative_rows
                                  Scenario.linked
     = (mkDB [mkBusinessCustomer 1 7 0 (Some 15)]
             [mkInvoice 1 1 7 "INV-1700000000000" 19000 19015 (-20) 0 sent None]
             [mkLineItem 1 "Widget" (-2) 10 (-20)] [] [],
        Silent).
Proof. repeat split. Qed.

(** C6, amended.  The handler validates nothing; the only errors it shows
    are those of its two inserts.  The form never holds an empty list of
    rows, whatever the user does to it.  When the insert of the invoice
    returns an error, the tables are as they were; when it succeeds, the
    invoice is stored as sent, with nothing paid and with the sum over the
    rows of quantity times price as its total, whatever the signs, and
    when the insert of the items succeeds too no error is shown and the
    invoice's items are the rows of the form. *)
Theorem handleCreateInvoice_validates_nothing
        (parseFloat : string -> Z) (env : Env) (businessId customerId date : Z)
        (rows : list Business.FormRow) (d : DB) :
  (forall actions, fold_left Business.form_step actions Business.initial_rows <> [])
  /\ (forall message,
         fault env 1%nat = Some message ->
         Business.handleCreateInvoice parseFloat env businessId customerId date rows d
         = (d, Alert (String.append "Error creating invoice: " message)))
  /\ (fault env 1%nat = None ->
      let d' := fst (Business.handleCreateInvoice parseFloat env businessId customerId date rows d) in
      exists inv,
        invoices d' = invoices d ++ [inv]
        /\ status inv = sent /\ paid_amount inv = 0
        /\ total_amount inv
           = fold_left (fun sum item =>
                          sum + parseFloat (Business.row_quantity item)
                                * parseFloat (Business.row_unit_price item)) rows 0
        /\ (fault env 2%nat = None ->
            snd (Business.handleCreateInvoice parseFloat env businessId customerId date rows d)
            = Silent
            /\ items_of d' (inv_id inv)
               = map (fun item =>
                        mkLineItem (inv_id inv) (Business.row_item_name item)
                                   (parseFloat (Business.row_quantity item))
                                   (parseFloat (Business.row_unit_price item))
                                   (parseFloat (Business.row_quantity item)
                                    * parseFloat (Business.row_unit_price item))) rows)).
Proof.
  split; [exact form_never_empty|split].
  - intros message F1; unfold Business.handleCreateInvoice; rewrite F1; reflexivity.
  - intros F1 d'; subst d'; unfold Business.handleCreateInvoice; rewrite F1.
    eexists; split; [|split; [|split; [|split]]].
    + destruct (fault env 2%nat); reflexivity.
    + reflexivity.
    + reflexivity.
    + reflexivity.
    + intro F2; rewrite F2; cbn [fst snd inv_id]; split; [reflexivity|].
      rewrite items_of_insert.
      change (items_of (insert_invoice _ d) (next_invoice_id d))
        with (items_of d (next_invoice_id d)).
      rewrite items_of_next_invoice_id; cbn [app].
      apply filter_same_key; reflexivity.
Qed.

Lemma handleCreateInvoice_validates_nothing_witness :
  fold_left Business.form_step [Business.RemoveRow 0; Business.AddRow; Business.RemoveRow 1]
            Business.initial_rows <> []
  /\ Business.handleCreateInvoice parse_decimal (failing_at 1) 1 7 19000 Scenario.negative_rows
                                  Scenario.linked
     = (Scenario.linked, Alert "Error creating invoice: timeout")
  /\ exists inv,
      invoices (fst (Business.handleCreateInvoice parse_decimal calm 1 7 19000
                                                  Scenario.negative_rows Scenario.linked))
      = [inv]
      /\ status inv = sent /\ total_amount inv = -20.
Proof.
  split; [|split].
  - destruct (handleCreateInvoice_validates_nothing
                parse_decimal calm 1 7 19000 Scenario.negative_rows Scenario.linked)
      as [Hform _].
    apply Hform.
  - destruct (handleCreateInvoice_validates_nothing
                parse_decimal (failing_at 1) 1 7 19000 Scenario.negative_rows Scenario.linked)
      as [_ [Hfail _]].
    apply Hfail; reflexivity.
  - destruct (handleCreateInvoice_validates_nothing
                parse_decimal calm 1 7 19000 Scenario.negative_rows Scenario.linked)
      as [_ [_ Hok]].
    destruct (Hok eq_refl) as [inv [Hinv [Hs [_ [Ht _]]]]].
    exists inv; split; [exact Hinv | split; [exact Hs | exact Ht]].
Defined.

(** The due date of the invoice a creation stores. *)
Lemma handleCreateInvoice_due_date
      (parseFloat : string -> Z) (env : Env) (businessId customerId date : Z)
      (rows : list Business.FormRow) (d : DB) :
  fault env 1%nat = None ->
  map due_date
      (invoices (fst (Business.handleCreateInvoice parseFloat env businessId customerId date rows d)))
  = map due_date (invoices d)
    ++ [date + js_or (match (match fault env 0%nat with
                             | None =>
                                 single (filter (fun bc => (bc_business_id bc =? businessId)
                                                           && (bc_customer_id bc =? customerId))
                                                (business_customers d))
                             | Some _ => None
                             end) with
                      | Some bc => payment_terms_days bc
                      | None => None
                      end) 30].
Proof.
  intro F1; unfold Business.handleCreateInvoice; rewrite F1.
  destruct (fault env 2%nat); cbn [fst invoices insert_items insert_invoice];
    rewrite map_app; reflexivity.
Qed.

(** Terms of a non-zero number of days are the ones used. *)
Lemma due_date_with_terms
      (parseFloat : string -> Z) (env : Env) (businessId customerId date : Z)
      (rows : list Business.FormRow) (d : DB) (bc : BusinessCustomer) (days : Z) :
  fault env 0%nat = None -> fault env 1%nat = None ->
  filter (fun bc => (bc_business_id bc =? businessId) && (bc_customer_id bc =? customerId))
         (business_customers d) = [bc] ->
  payment_terms_days bc = Some days -> days <> 0 ->
  map due_date
      (invoices (fst (Business.handleCreateInvoice parseFloat env businessId customerId date rows d)))
  = map due_date (invoices d) ++ [date + days].
Proof.
  intros F0 F1 Hbc Ht Hd.
  rewrite handleCreateInvoice_due_date by exact F1.
  rewrite F0, Hbc; cbn [single]; rewrite Ht; cbn [js_or].
  apply Z.eqb_neq in Hd; rewrite Hd; reflexivity.
Qed.

(** With no link between the business and the customer, thirty days. *)
Lemma due_date_without_terms
      (parseFloat : string -> Z) (env : Env) (businessId customerId date : Z)
      (rows : list Business.FormRow) (d : DB) :
  fault env 1%nat = None ->
  filter (fun bc => (bc_business_id bc =? businessId) && (bc_customer_id bc =? customerId))
         (business_customers d) = [] ->
  map due_date
      (invoices (fst (Business.handleCreateInvoice parseFloat env businessId customerId date rows d)))
  = map due_date (invoices d) ++ [date + 30].
Proof.
  intros F1 Hbc.
  rewrite handleCreateInvoice_due_date by exact F1.
  rewrite Hbc; destruct (fault env 0%nat); reflexivity.
Qed.

(** C9.  The code departs from the claim when the terms configured for
    the pair are zero days: [0 || 30] is 30, so the invoice is due thirty
    days after its date and not on its date. *)
Theorem zero_day_terms_are_replaced_by_thirty
        (parseFloat : string -> Z) (env : Env) (businessId customerId date : Z)
        (rows : list Business.FormRow) (d : DB) (bc : BusinessCustomer) :
  fault env 0%nat = None -> fault env 1%nat = None ->
  filter (fun bc => (bc_business_id bc =? businessId) && (bc_customer_id bc =? customerId))
         (business_customers d) = [bc] ->
  payment_terms_days bc = Some 0 ->
  map due_date
      (invoices (fst (Business.handleCreateInvoice parseFloat env businessId customerId date rows d)))
  = map due_date (invoices d) ++ [date + 30].
Proof.
  intros F0 F1 Hbc Ht.
  rewrite handleCreateInvoice_due_date by exact F1.
  rewrite F0, Hbc; cbn [single]; rewrite Ht; reflexivity.
Qed.

Lemma zero_day_terms_are_replaced_by_thirty_witness :
  map due_date
      (invoices (fst (Business.handleCreateInvoice parse_decimal calm 1 7 19000
                                                   Scenario.widget_rows Scenario.zero_terms)))
  = [19030].
Proof.
  apply (zero_day_terms_are_replaced_by_thirty
           parse_decimal calm 1 7 19000 Scenario.widget_rows Scenario.zero_terms
           (mkBusinessCustomer 1 7 0 (Some 0)));
    reflexivity.
Defined.

End Creation.

(** ** Registering customers *)

Section Registering.
Import Store Ledger Accounts.

Variable parseFloat : string -> option Z.
Variable parseInt : string -> option Z.

Lemma formatPhone_starts_with_plus (phone : string) :
  String.prefix "+" (formatPhone phone) = true.
Proof.
  unfold formatPhone; destruct (String.prefix "+" phone) eqn:E; [exact E | reflexivity].
Qed.

(** X1.  The phone a handler passes on always starts with "+", and
    formatting a formatted phone changes nothing. *)
Theorem formatPhone_idempotent (phone : string) :
  String.prefix "+" (formatPhone phone) = true
  /\ formatPhone (formatPhone phone) = formatPhone phone.
Proof.
  unfold formatPhone; destruct (String.prefix "+" phone) eqn:E.
  - rewrite E; split; reflexivity.
  - split; reflexivity.
Qed.

Lemma single_filter_found {A : Type} (f : A -> bool) (l : list A) (x : A) :
  single (filter f l) = Some x -> In x l /\ f x = true /\ filter f l = [x].
Proof.
  intro H; unfold single in H.
  destruct (filter f l) as [|y [|z rest]] eqn:E; try discriminate.
  injection H as ->.
  assert (Hin : In x (filter f l)) by (rewrite E; left; reflexivity).
  apply filter_In in Hin; tauto.
Qed.

Lemma next_customer_id_unused (t : Tables) (c : CustomerRow) :
  In c (customers t) -> cust_id c < next_customer_id t.
Proof.
  intro H; unfold next_customer_id.
  assert (cust_id c <= max_id (map cust_id (customers t)))
    by (apply max_id_bound, in_map; exact H).
  lia.
Qed.

(** The five ways a run of [handleAddCustomer] can go. *)
Lemma handleAddCustomer_cases env businessId n t d :
  let found :=
    match fault env 0%nat with
    | None => single (filter (fun c => (phone_number c =? formatPhone (BusinessAdmin.phone n))%string)
                             (customers t))
    | Some _ => None
    end in
  let run := BusinessAdmin.handleAddCustomer parseFloat parseInt env businessId n t d in
  (exists c, found = Some c
             /\ ((exists message, fault env 1%nat = Some message
                                  /\ run = (t, d, Alert (String.append "Error linking customer: " message)))
                 \/ (fault env 1%nat = None
                     /\ run = (t,
                               BusinessAdmin.insert_link
                                 (BusinessAdmin.link_row parseFloat parseInt businessId n (cust_id c)) d,
                               Silent))))
  \/ (found = None
      /\ ((exists message, fault env 1%nat = Some message
                           /\ run = (t, d, Alert (String.append "Error creating customer: " message)))
          \/ (fault env 1%nat = None
              /\ ((exists message, fault env 2%nat = Some message
                                   /\ run = (insert_customer (BusinessAdmin.customer_row n t) t, d,
                                             Alert (String.append "Error linking customer: " message)))
                  \/ (fault env 2%nat = None
                      /\ run = (insert_customer (BusinessAdmin.customer_row n t) t,
                                BusinessAdmin.insert_link
                                  (BusinessAdmin.link_row parseFloat parseInt businessId n
                                                          (next_customer_id t)) d,
                                Silent)))))).
Proof.
  intros found run; subst run; unfold BusinessAdmin.handleAddCustomer.
  fold found; destruct found as [c|].
  - left; exists c; split; [reflexivity|].
    destruct (fault env 1%nat) as [message|]; [left; exists message | right]; split; reflexivity.
  - right; split; [reflexivity|].
    destruct (fault env 1%nat) as [message|]; [left; exists message; split; reflexivity|].
    right; split; [reflexivity|]; cbn [cust_id BusinessAdmin.customer_row].
    destruct (fault env 2%nat) as [message|]; [left; exists message | right]; split; reflexivity.
Qed.

(** X2.  A run of [handleAddCustomer] that shows no error has stored
    exactly one new link, from the business to a stored customer whose
    phone is the formatted phone, with the credit limit read from the form
    (0 when unreadable) and the terms read from the form (null when
    unreadable); the customers are as they were, or one more with that
    phone and no account; every other table is as it was. *)
Theorem handleAddCustomer_links_one_customer env businessId n t d :
  snd (BusinessAdmin.handleAddCustomer parseFloat parseInt env businessId n t d) = Silent ->
  let t' := fst (fst (BusinessAdmin.handleAddCustomer parseFloat parseInt env businessId n t d)) in
  let d' := snd (fst (BusinessAdmin.handleAddCustomer parseFloat parseInt env businessId n t d)) in
  exists c,
    In c (customers t')
    /\ phone_number c = formatPhone (BusinessAdmin.phone n)
    /\ business_customers d'
       = business_customers d
         ++ [mkBusinessCustomer businessId (cust_id c)
                                (js_or (parseFloat (BusinessAdmin.creditLimit n)) 0)
                                (parseInt (BusinessAdmin.paymentTerms n))]
    /\ (customers t' = customers t
        \/ (customers t' = customers t ++ [c] /\ cust_user_id c = None))
    /\ businesses t' = businesses t /\ user_roles t' = user_roles t
    /\ invoices d' = invoices d /\ invoice_items d' = invoice_items d
    /\ invoice_edit_requests d' = invoice_edit_requests d /\ payments d' = payments d.
Proof.
  intros Hs t' d'; subst t' d'.
  destruct (handleAddCustomer_cases env businessId n t d)
    as [[c [Hf [[m [_ Hr]] | [_ Hr]]]] | [Hf [[m [_ Hr]] | [_ [[m [_ Hr]] | [_ Hr]]]]]];
    rewrite Hr in *; cbn [fst snd] in *; try discriminate.
  - exists c.
    destruct (fault env 0%nat); [discriminate|].
    apply single_filter_found in Hf; destruct Hf as [Hin [Hp _]].
    apply String.eqb_eq in Hp.
    repeat split; try assumption; left; reflexivity.
  - exists (BusinessAdmin.customer_row n t); cbn.
    repeat split; [apply in_or_app; right; left; reflexivity|].
    right; split; reflexivity.
Qed.

Lemma key_determines_row {A : Type} (key : A -> Z) (l : list A) (x y : A) :
  NoDup (map key l) -> In x l -> In y l -> key x = key y -> x = y.
Proof.
  induction l as [|a l IH]; simpl; [tauto|].
  intros Hn Hx Hy E; inversion Hn as [|? ? Ha Hl]; subst.
  destruct Hx as [-> | Hx], Hy as [-> | Hy]; try reflexivity.
  - exfalso; apply Ha; rewrite E; apply in_map; exact Hy.
  - exfalso; apply Ha; rewrite <- E; apply in_map; exact Hx.
  - apply IH; assumption.
Qed.

(** The customer a run links is never a stored one whose phone lacks the
    "+". *)
Lemma link_avoids_bare_phone env businessId n t d r :
  NoDup (map cust_id (customers t)) ->
  In r (customers t) -> String.prefix "+" (phone_number r) = false ->
  let d' := snd (fst (BusinessAdmin.handleAddCustomer parseFloat parseInt env businessId n t d)) in
  d' = d
  \/ exists customerId,
      customerId <> cust_id r
      /\ business_customers d'
         = business_customers d
           ++ [BusinessAdmin.link_row parseFloat parseInt businessId n customerId].
Proof.
  intros Hn Hr Hp d'; subst d'.
  destruct (handleAddCustomer_cases env businessId n t d)
    as [[c [Hf [[m [_ Hx]] | [_ Hx]]]] | [Hf [[m [_ Hx]] | [_ [[m [_ Hx]] | [_ Hx]]]]]];
    rewrite Hx; cbn [fst snd]; try (left; reflexivity); right.
  - exists (cust_id c); split; [|reflexivity].
    destruct (fault env 0%nat); [discriminate|].
    apply single_filter_found in Hf; destruct Hf as [Hin [Hc _]].
    apply String.eqb_eq in Hc.
    intro E; apply (key_determines_row cust_id _ c r Hn Hin Hr) in E; subst c.
    rewrite Hc, formatPhone_starts_with_plus in Hp; discriminate.
  - exists (next_customer_id t); split; [|reflexivity].
    apply next_customer_id_unused in Hr; lia.
Qed.

(** X3.  With customer keys distinct, a stored customer whose phone does
    not start with "+" is never the one [handleAddCustomer] links,
    whatever is typed in the form: the run either stores no link or links
    a customer with another key. *)
Theorem handleAddCustomer_never_links_bare_phone env businessId n t d r :
  NoDup (map cust_id (customers t)) ->
  In r (customers t) -> String.prefix "+" (phone_number r) = false ->
  let d' := snd (fst (BusinessAdmin.handleAddCustomer parseFloat parseInt env businessId n t d)) in
  d' = d
  \/ exists customerId,
      customerId <> cust_id r
      /\ business_customers d'
         = business_customers d
           ++ [mkBusinessCustomer businessId customerId
                                  (js_or (parseFloat (BusinessAdmin.creditLimit n)) 0)
                                  (parseInt (BusinessAdmin.paymentTerms n))].
Proof. exact (link_avoids_bare_phone env businessId n t d r). Qed.

(** X4.  When [handleAddCustomer] shows an error, no link has been
    stored.  The customers are as they were, except that a run which fails
    at the link after having created the customer leaves that customer
    stored, with the link error shown. *)
Theorem handleAddCustomer_error_leaves_no_link env businessId n t d :
  snd (BusinessAdmin.handleAddCustomer parseFloat parseInt env businessId n t d) <> Silent ->
  let t' := fst (fst (BusinessAdmin.handleAddCustomer parseFloat parseInt env businessId n t d)) in
  let d' := snd (fst (BusinessAdmin.handleAddCustomer parseFloat parseInt env businessId n t d)) in
  d' = d
  /\ (t' = t
      \/ (customers t' = customers t ++ [BusinessAdmin.customer_row n t]
          /\ exists message,
              snd (BusinessAdmin.handleAddCustomer parseFloat parseInt env businessId n t d)
              = Alert (String.append "Error linking customer: " message))).
Proof.
  intros Hs t' d'; subst t' d'.
  destruct (handleAddCustomer_cases env businessId n t d)
    as [[c [Hf [[m [_ Hx]] | [_ Hx]]]] | [Hf [[m [_ Hx]] | [_ [[m [_ Hx]] | [_ Hx]]]]]];
    rewrite Hx in *; cbn [fst snd] in *; try (elim Hs; reflexivity);
      (split; [reflexivity|]); try (left; reflexivity).
  right; split; [reflexivity | exists m; reflexivity].
Qed.

(** X5.  When the lookup of the phone returns an error, or more than one
    stored customer has the phone, the customer counts as unknown: if the
    insert then succeeds, one more customer with that phone is stored. *)
Theorem handleAddCustomer_duplicates_customer env businessId n t d :
  (fault env 0%nat <> None
   \/ (2 <= List.length
               (filter (fun c => (phone_number c =? formatPhone (BusinessAdmin.phone n))%string)
                       (customers t)))%nat) ->
  fault env 1%nat = None ->
  let t' := fst (fst (BusinessAdmin.handleAddCustomer parseFloat parseInt env businessId n t d)) in
  customers t' = customers t ++ [BusinessAdmin.customer_row n t]
  /\ List.length
       (filter (fun c => (phone_number c =? formatPhone (BusinessAdmin.phone n))%string)
               (customers t'))
     = S (List.length
            (filter (fun c => (phone_number c =? formatPhone (BusinessAdmin.phone n))%string)
                    (customers t))).
Proof.
  intros H0 F1 t'; subst t'.
  assert (Hc : customers (fst (fst (BusinessAdmin.handleAddCustomer
                                      parseFloat parseInt env businessId n t d)))
               = customers t ++ [BusinessAdmin.customer_row n t]).
  { unfold BusinessAdmin.handleAddCustomer.
    destruct (fault env 0%nat) as [m0|] eqn:F0.
    - rewrite F1; destruct (fault env 2%nat); reflexivity.
    - destruct H0 as [H0 | H0]; [elim H0; reflexivity|].
      destruct (filter _ (customers t)) as [|x [|y rest]]; simpl in H0; try lia.
      cbn [single]; rewrite F1; destruct (fault env 2%nat); reflexivity. }
  split; [exact Hc|].
  rewrite Hc, filter_app, length_app; cbn [filter BusinessAdmin.customer_row phone_number].
  rewrite String.eqb_refl; simpl; lia.
Qed.

Lemma pair_filter_app businessId customerId (l : list BusinessCustomer) (bc : BusinessCustomer) :
  bc_business_id bc = businessId -> bc_customer_id bc = customerId ->
  filter (fun bc => (bc_business_id bc =? businessId) && (bc_customer_id bc =? customerId))
         (l ++ [bc])
  = filter (fun bc => (bc_business_id bc =? businessId) && (bc_customer_id bc =? customerId)) l
    ++ [bc].
Proof.
  intros <- <-; rewrite filter_app; cbn [filter]; rewrite !Z.eqb_refl; reflexivity.
Qed.

(** X6.  A customer registered without error and not linked to the
    business before is invoiced on the terms typed in the form: the
    payment terms that the creation of an invoice reads for the customer
    are the number read from the terms field, and 30 when the field reads
    as 0 or cannot be read. *)
Theorem registered_terms_are_the_terms_read env1 env2 businessId n t d bc :
  let d' := snd (fst (BusinessAdmin.handleAddCustomer parseFloat parseInt env1 businessId n t d)) in
  business_customers d' = business_customers d ++ [bc] ->
  filter (fun x => (bc_business_id x =? businessId) && (bc_customer_id x =? bc_customer_id bc))
         (business_customers d) = [] ->
  fault env2 0%nat = None ->
  Business.paymentTerms env2 businessId (bc_customer_id bc) d'
  = js_or (parseInt (BusinessAdmin.paymentTerms n)) 30.
Proof.
  intros d' Hl Hnone F0.
  assert (Hbc : bc = BusinessAdmin.link_row parseFloat parseInt businessId n (bc_customer_id bc)).
  { subst d'.
    destruct (handleAddCustomer_cases env1 businessId n t d)
      as [[c [Hf [[m [_ Hx]] | [_ Hx]]]] | [Hf [[m [_ Hx]] | [_ [[m [_ Hx]] | [_ Hx]]]]]];
      rewrite Hx in Hl; cbn [fst snd BusinessAdmin.insert_link business_customers] in Hl;
        try (apply (f_equal (@List.length _)) in Hl; rewrite length_app in Hl; simpl in Hl; lia);
        apply app_inv_head in Hl; injection Hl as <-; reflexivity. }
  unfold Business.paymentTerms.
  rewrite F0, Hl, (pair_filter_app businessId (bc_customer_id bc)), Hnone;
    [|rewrite Hbc; reflexivity | reflexivity].
  cbn [app single]; rewrite Hbc at 1.
  cbn [BusinessAdmin.link_row payment_terms_days].
  destruct (parseInt (BusinessAdmin.paymentTerms n)) as [z|]; [|reflexivity].
  unfold js_or; destruct (z =? 0) eqn:E; [reflexivity|]; rewrite ?E; reflexivity.
Qed.

(** X7.  Nothing in [handleAddCustomer] looks for an earlier link: a
    known customer is linked once more.  And when a pair has more than one
    link, the terms of none of them are used: the payment terms that the
    creation of an invoice reads for the pair are 30. *)
Theorem pair_linked_twice_reads_thirty_days env businessId customerId d :
  (forall n t c,
      fault env 0%nat = None -> fault env 1%nat = None ->
      single (filter (fun c => (phone_number c =? formatPhone (BusinessAdmin.phone n))%string)
                     (customers t)) = Some c ->
      business_customers
        (snd (fst (BusinessAdmin.handleAddCustomer parseFloat parseInt env businessId n t d)))
      = business_customers d
        ++ [BusinessAdmin.link_row parseFloat parseInt businessId n (cust_id c)])
  /\ ((2 <= List.length
              (filter (fun bc => ((bc_business_id bc =? businessId)
                                  && (bc_customer_id bc =? customerId))%Z)
                      (business_customers d)))%nat ->
      Business.paymentTerms env businessId customerId d = 30).
Proof.
  split.
  - intros n t c F0 F1 Hf; unfold BusinessAdmin.handleAddCustomer.
    rewrite F0, Hf, F1; reflexivity.
  - intros H2; unfold Business.paymentTerms.
    destruct (filter _ (business_customers d)) as [|x [|y rest]]; simpl in H2; try lia.
    destruct (fault env 0%nat); reflexivity.
Qed.

End Registering.

Lemma handleAddCustomer_links_one_customer_witness :
  let run := BusinessAdmin.handleAddCustomer Fixtures.parse_number Fixtures.parse_number
                                             Fixtures.no_env 1 Fixtures.asha_form
                                             Fixtures.directory Store.empty_db in
  exists c,
    In c (Accounts.customers (fst (fst run)))
    /\ Accounts.phone_number c = "+919876543210"%string
    /\ Store.business_customers (snd (fst run))
       = [Store.mkBusinessCustomer 1 (Accounts.cust_id c) 5000 (Some 45)]
    /\ Accounts.cust_id c = 8.
Proof.
  intro run.
  destruct (handleAddCustomer_links_one_customer
              Fixtures.parse_number Fixtures.parse_number
              Fixtures.no_env 1 Fixtures.asha_form Fixtures.directory Store.empty_db eq_refl)
    as [c [Hin [Hp [Hl [Hc _]]]]].
  exists c; split; [exact Hin | split; [exact Hp | split; [exact Hl|]]].
  destruct Hc as [Hc | [Hc _]].
  - apply (f_equal (@List.length _)) in Hc; discriminate.
  - injection Hc as <-; reflexivity.
Defined.

Lemma handleAddCustomer_never_links_bare_phone_witness :
  exists customerId,
    customerId <> 7
    /\ Store.business_customers
         (snd (fst (BusinessAdmin.handleAddCustomer
                      Fixtures.parse_number Fixtures.parse_number Fixtures.no_env 1
                      Fixtures.asha_form Fixtures.directory Store.empty_db)))
       = [Store.mkBusinessCustomer 1 customerId 5000 (Some 45)].
Proof.
  destruct (handleAddCustomer_never_links_bare_phone
              Fixtures.parse_number Fixtures.parse_number Fixtures.no_env 1
              Fixtures.asha_form Fixtures.directory Store.empty_db
              (Accounts.mkCustomerRow 7 (Some 200) "Asha" "9876543210" "asha@mail.test" None))
    as [H | H].
  - repeat constructor; simpl; tauto.
  - left; reflexivity.
  - reflexivity.
  - discriminate.
  - exact H.
Defined.

Lemma handleAddCustomer_error_leaves_no_link_witness :
  let run := BusinessAdmin.handleAddCustomer
               Fixtures.parse_number Fixtures.parse_number (Fixtures.only_failing 2) 1
               Fixtures.asha_form Fixtures.directory Store.empty_db in
  snd (fst run) = Store.empty_db
  /\ List.length (Accounts.customers (fst (fst run))) = 2%nat
  /\ snd run = Store.Alert "Error linking customer: timeout".
Proof.
  intro run.
  destruct (handleAddCustomer_error_leaves_no_link
              Fixtures.parse_number Fixtures.parse_number (Fixtures.only_failing 2) 1
              Fixtures.asha_form Fixtures.directory Store.empty_db)
    as [Hd Ht].
  - discriminate.
  - split; [exact Hd | split; reflexivity].
Defined.

Lemma handleAddCustomer_duplicates_customer_witness :
  List.length
    (Accounts.customers
       (fst (fst (BusinessAdmin.handleAddCustomer
                    Fixtures.parse_number Fixtures.parse_number (Fixtures.only_failing 0) 1
                    (BusinessAdmin.mkNewCustomer "+911111111111" "Asha" "" "" "" "")
                    (Accounts.mkTables
                       [Accounts.mkCustomerRow 7 None "Asha" "+911111111111" "" None] [] [])
                    Store.empty_db))))
  = 2%nat.
Proof.
  destruct (handleAddCustomer_duplicates_customer
              Fixtures.parse_number Fixtures.parse_number (Fixtures.only_failing 0) 1
              (BusinessAdmin.mkNewCustomer "+911111111111" "Asha" "" "" "" "")
              (Accounts.mkTables
                 [Accounts.mkCustomerRow 7 None "Asha" "+911111111111" "" None] [] [])
              Store.empty_db) as [Hc _].
  - left; discriminate.
  - reflexivity.
  - rewrite Hc; reflexivity.
Defined.

Lemma registered_terms_are_the_terms_read_witness :
  Business.paymentTerms
    Fixtures.no_env 1 8
    (snd (fst (BusinessAdmin.handleAddCustomer
                 Fixtures.parse_number Fixtures.parse_number Fixtures.no_env 1
                 Fixtures.asha_form Fixtures.directory Store.empty_db)))
  = 45.
Proof.
  apply (registered_terms_are_the_terms_read
           Fixtures.parse_number Fixtures.parse_number
           Fixtures.no_env Fixtures.no_env 1 Fixtures.asha_form Fixtures.directory
           Store.empty_db (Store.mkBusinessCustomer 1 8 5000 (Some 45))); reflexivity.
Defined.

Lemma pair_linked_twice_reads_thirty_days_witness :
  let once := BusinessAdmin.handleAddCustomer
                Fixtures.parse_number Fixtures.parse_number Fixtures.no_env 1
                Fixtures.asha_form Fixtures.directory Store.empty_db in
  let twice := BusinessAdmin.handleAddCustomer
                 Fixtures.parse_number Fixtures.parse_number Fixtures.no_env 1
                 Fixtures.asha_form (fst (fst once)) (snd (fst once)) in
  Store.business_customers (snd (fst twice))
  = [Store.mkBusinessCustomer 1 8 5000 (Some 45); Store.mkBusinessCustomer 1 8 5000 (Some 45)]
  /\ Business.paymentTerms Fixtures.no_env 1 8 (snd (fst twice)) = 30.
Proof.
  intros once twice; split.
  - destruct (pair_linked_twice_reads_thirty_days
                Fixtures.parse_number Fixtures.parse_number
                Fixtures.no_env 1 8 (snd (fst once))) as [Hl _].
    apply (Hl Fixtures.asha_form (fst (fst once))
              (Accounts.mkCustomerRow 8 None "Asha" "+919876543210" "" (Some ""%string)));
      reflexivity.
  - destruct (pair_linked_twice_reads_thirty_days
                Fixtures.parse_number Fixtures.parse_number
                Fixtures.no_env 1 8 (snd (fst twice))) as [_ Hd].
    apply Hd; simpl; lia.
Defined.

(** ** Entering a dashboard *)

Section Entering.
Import Store Ledger Accounts.

Lemma shown_invoice_is_stored (d : DB) (f : Invoice -> bool) (v : InvoiceView) :
  In v (map (with_items d) (rev (filter f (invoices d)))) ->
  In (view_invoice v) (invoices d)
  /\ f (view_invoice v) = true
  /\ items v = items_of d (inv_id (view_invoice v)).
Proof.
  intro H; apply in_map_iff in H; destruct H as [inv [<- H]].
  apply In_rev, filter_In in H; cbn [view_invoice items with_items]; tauto.
Qed.

Lemma business_loadData_invoices env businessId d v :
  In v (Business.shown_invoices (Business.loadData env businessId d)) ->
  In (view_invoice v) (invoices d)
  /\ business_id (view_invoice v) = businessId
  /\ items v = items_of d (inv_id (view_invoice v)).
Proof.
  unfold Business.loadData; cbn [Business.shown_invoices].
  destruct (fault env 1%nat); cbn [query or_empty]; [intros []|].
  intro H; apply shown_invoice_is_stored in H.
  destruct H as [H1 [H2 H3]]; apply Z.eqb_eq in H2; tauto.
Qed.

Lemma business_loadData_customers env businessId d bc :
  In bc (Business.customers (Business.loadData env businessId d)) ->
  In bc (business_customers d) /\ bc_business_id bc = businessId.
Proof.
  unfold Business.loadData; cbn [Business.customers].
  destruct (fault env 0%nat); cbn [query or_empty]; [intros []|].
  intro H; apply filter_In in H; destruct H as [H1 H2]; apply Z.eqb_eq in H2; tauto.
Qed.

Lemma customer_loadData_invoices env customerId d p v :
  In v (Customer.shown_invoices (Customer.loadData env customerId d p)) ->
  In (view_invoice v) (invoices d)
  /\ customer_id (view_invoice v) = customerId
  /\ items v = items_of d (inv_id (view_invoice v)).
Proof.
  unfold Customer.loadData; cbn [Customer.shown_invoices].
  destruct (fault env 0%nat); cbn [query or_empty]; [intros []|].
  intro H; apply shown_invoice_is_stored in H.
  destruct H as [H1 [H2 H3]]; apply Z.eqb_eq in H2; tauto.
Qed.

Lemma customer_loadData_requests env customerId d p r :
  In r (Customer.myRequests (Customer.loadData env customerId d p)) ->
  In r (invoice_edit_requests d) /\ requested_by r = customerId.
Proof.
  unfold Customer.loadData; cbn [Customer.myRequests].
  destruct (fault env 1%nat); cbn [query or_empty]; [intros []|].
  intro H; apply In_rev, filter_In in H; destruct H as [H1 H2]; apply Z.eqb_eq in H2; tauto.
Qed.

(** X8.  [checkAuth] of the business dashboard sends everybody to /login
    except a signed-in user who owns exactly one business profile (read
    without error); the role table plays no part, and the profile is the
    one [getBusinessProfile] returns.  What is then shown is that
    business's own: its customer links, its invoices, each with the stored
    items of that invoice, and requests on its invoices. *)
Theorem business_checkAuth_shows_own_business env user t d :
  match BusinessAdmin.checkAuth env user t d with
  | BusinessAdmin.Redirect path => path = "/login"%string
  | BusinessAdmin.Shown b dash =>
      user = Some (biz_user_id b)
      /\ In b (businesses t)
      /\ (forall b', In b' (businesses t) -> biz_user_id b' = biz_user_id b -> b' = b)
      /\ (forall bc, In bc (Business.customers dash) ->
                     In bc (business_customers d) /\ bc_business_id bc = biz_id b)
      /\ (forall v, In v (Business.shown_invoices dash) ->
                    In (view_invoice v) (invoices d)
                    /\ business_id (view_invoice v) = biz_id b
                    /\ items v = items_of d (inv_id (view_invoice v)))
      /\ (forall r, In r (Business.editRequests dash) ->
                    exists inv, In inv (invoices d)
                                /\ business_id inv = biz_id b /\ inv_id inv = req_invoice_id r)
  end
  /\ (forall roles,
         BusinessAdmin.checkAuth env user (mkTables (customers t) (businesses t) roles) d
         = BusinessAdmin.checkAuth env user t d)
  /\ getBusinessProfile env user t
     = match BusinessAdmin.checkAuth env user t d with
       | BusinessAdmin.Redirect _ => None
       | BusinessAdmin.Shown b _ => Some b
       end.
Proof.
  split; [|split; [reflexivity|]].
  2: { unfold getBusinessProfile, BusinessAdmin.checkAuth.
       destruct user as [id|]; [|reflexivity].
       destruct (fault env 0%nat); [reflexivity|].
       destruct (single _); reflexivity. }
  unfold BusinessAdmin.checkAuth.
  destruct user as [id|]; [|reflexivity].
  destruct (fault env 0%nat); [reflexivity|].
  destruct (single _) as [b|] eqn:Hb; [|reflexivity].
  apply single_filter_found in Hb; destruct Hb as [Hin [Hu Hone]].
  apply Z.eqb_eq in Hu.
  split; [rewrite Hu; reflexivity|].
  split; [exact Hin|].
  split; [|split; [|split]].
  - intros b' Hin' Hu'.
    assert (H : In b' (filter (fun b0 => biz_user_id b0 =? id) (businesses t)))
      by (apply filter_In; split; [exact Hin' | apply Z.eqb_eq; congruence]).
    rewrite Hone in H; destruct H as [H | []]; congruence.
  - intros bc; apply business_loadData_customers.
  - intros v; apply business_loadData_invoices.
  - intros r Hr; apply listed_request_is_pending in Hr; tauto.
Qed.

(** X9.  [checkAuth] of the customer dashboard sends everybody to /login
    except a signed-in user to whom exactly one customer row is attached,
    the row [getCustomerProfile] returns.  The page then shown is that
    customer's: its invoices with their stored items, the requests it
    made, and no edit in progress. *)
Theorem customer_checkAuth_shows_own_invoices env user t d :
  match CustomerHome.checkAuth env user t d with
  | CustomerHome.Redirect path => path = "/login"%string
  | CustomerHome.Shown c page =>
      user <> None
      /\ cust_user_id c = user
      /\ In c (customers t)
      /\ (forall c', In c' (customers t) -> cust_user_id c' = user -> c' = c)
      /\ Customer.customer page = cust_id c
      /\ (forall v, In v (Customer.shown_invoices page) ->
                    In (view_invoice v) (invoices d)
                    /\ customer_id (view_invoice v) = cust_id c
                    /\ items v = items_of d (inv_id (view_invoice v)))
      /\ (forall r, In r (Customer.myRequests page) ->
                    In r (invoice_edit_requests d) /\ requested_by r = cust_id c)
      /\ Customer.selectedInvoice page = None
      /\ Customer.editedItems page = []
  end
  /\ getCustomerProfile env user t
     = match CustomerHome.checkAuth env user t d with
       | CustomerHome.Redirect _ => None
       | CustomerHome.Shown c _ => Some c
       end.
Proof.
  split.
  2: { unfold getCustomerProfile, CustomerHome.checkAuth.
       destruct user as [id|]; [|reflexivity].
       destruct (fault env 0%nat); [reflexivity|].
       destruct (single _); reflexivity. }
  unfold CustomerHome.checkAuth.
  destruct user as [id|]; [|reflexivity].
  destruct (fault env 0%nat); [reflexivity|].
  destruct (single _) as [c|] eqn:Hc; [|reflexivity].
  apply single_filter_found in Hc; destruct Hc as [Hin [Hu Hone]].
  assert (Hown : cust_user_id c = Some id).
  { unfold owned_by in Hu; destruct (cust_user_id c) as [u|]; [|discriminate].
    apply Z.eqb_eq in Hu; congruence. }
  split; [discriminate|].
  split; [exact Hown|].
  split; [exact Hin|].
  split; [|split; [reflexivity|split; [|split; [|split; reflexivity]]]].
  - intros c' Hin' Hu'.
    assert (H : In c' (filter (fun c0 => owned_by id (cust_user_id c0)) (customers t))).
    { apply filter_In; split; [exact Hin'|]; rewrite Hu'; simpl; apply Z.eqb_refl. }
    rewrite Hone in H; destruct H as [H | []]; congruence.
  - intros v; apply customer_loadData_invoices.
  - intros r; apply customer_loadData_requests.
Qed.

(** X10.  The customer row that [handleAddCustomer] creates carries no
    account, and nothing attaches one: whoever signs in, and whatever the
    ledger holds by then, the customer dashboard is never shown for that
    row and never shows an invoice issued to it. *)
Theorem registered_customer_has_no_dashboard
        (parseFloat parseInt : string -> option Z) env businessId n t d c :
  customers (fst (fst (BusinessAdmin.handleAddCustomer parseFloat parseInt env businessId n t d)))
  = customers t ++ [c] ->
  forall env' user d',
    match CustomerHome.checkAuth
            env' user
            (fst (fst (BusinessAdmin.handleAddCustomer parseFloat parseInt env businessId n t d)))
            d' with
    | CustomerHome.Redirect _ => True
    | CustomerHome.Shown c' page =>
        cust_id c' <> cust_id c
        /\ forall v, In v (Customer.shown_invoices page) ->
                     customer_id (view_invoice v) <> cust_id c
    end.
Proof.
  intros Hc env' user d'.
  assert (Hnew : c = BusinessAdmin.customer_row n t).
  { destruct (handleAddCustomer_cases parseFloat parseInt env businessId n t d)
      as [[c0 [Hf [[m [_ Hx]] | [_ Hx]]]] | [Hf [[m [_ Hx]] | [_ [[m [_ Hx]] | [_ Hx]]]]]];
      rewrite Hx in Hc; cbn [fst snd insert_customer customers] in Hc;
        try (apply (f_equal (@List.length _)) in Hc; rewrite length_app in Hc; simpl in Hc; lia);
        apply app_inv_head in Hc; injection Hc as <-; reflexivity. }
  set (t' := fst (fst (BusinessAdmin.handleAddCustomer parseFloat parseInt env businessId n t d)))
    in *.
  unfold CustomerHome.checkAuth.
  destruct user as [id|]; [|exact I].
  destruct (fault env' 0%nat); [exact I|].
  destruct (single _) as [c'|] eqn:Hs; [|exact I].
  apply single_filter_found in Hs; destruct Hs as [Hin [Hu _]].
  assert (Hlt : cust_id c' < cust_id c).
  { rewrite Hc in Hin; apply in_app_or in Hin; destruct Hin as [Hin | [<- | []]].
    - apply next_customer_id_unused in Hin; rewrite Hnew; exact Hin.
    - rewrite Hnew in Hu; discriminate. }
  split; [lia|].
  intros v Hv; apply customer_loadData_invoices in Hv; lia.
Qed.

End Entering.

Lemma registered_customer_has_no_dashboard_witness :
  match CustomerHome.checkAuth
          Fixtures.no_env (Some 200)
          (fst (fst (BusinessAdmin.handleAddCustomer
                       Fixtures.parse_number Fixtures.parse_number Fixtures.no_env 1
                       Fixtures.asha_form Fixtures.directory Store.empty_db)))
          Scenario.requested with
  | CustomerHome.Redirect _ => True
  | CustomerHome.Shown c' page =>
      Accounts.cust_id c' <> 8
      /\ Forall (fun v => Store.customer_id (Store.view_invoice v) <> 8)
                (Customer.shown_invoices page)
  end.
Proof.
  pose proof (registered_customer_has_no_dashboard
                Fixtures.parse_number Fixtures.parse_number Fixtures.no_env 1
                Fixtures.asha_form Fixtures.directory Store.empty_db
                (Accounts.mkCustomerRow 8 None "Asha" "+919876543210" "" (Some ""%string))
                eq_refl Fixtures.no_env (Some 200) Scenario.requested) as H.
  destruct (CustomerHome.checkAuth _ _ _ _) as [path | c' page]; [exact I|].
  destruct H as [H1 H2]; split; [exact H1 | apply Forall_forall; exact H2].
Defined.

Lemma business_checkAuth_shows_own_business_witness :
  match BusinessAdmin.checkAuth Fixtures.no_env (Some 100) Fixtures.directory
                                Scenario.requested with
  | BusinessAdmin.Redirect _ => False
  | BusinessAdmin.Shown b dash =>
      Accounts.biz_id b = 1
      /\ List.length (Business.shown_invoices dash) = 1%nat
      /\ forall v, In v (Business.shown_invoices dash) ->
                   Store.business_id (Store.view_invoice v) = Accounts.biz_id b
  end.
Proof.
  destruct (business_checkAuth_shows_own_business
              Fixtures.no_env (Some 100) Fixtures.directory Scenario.requested) as [H _].
  destruct (BusinessAdmin.checkAuth Fixtures.no_env (Some 100) Fixtures.directory
                                    Scenario.requested) as [path | b dash] eqn:E.
  - discriminate E.
  - injection E as <- <-.
    split; [reflexivity | split; [reflexivity|]].
    intros v Hv; apply H; exact Hv.
Defined.

Lemma customer_checkAuth_shows_own_invoices_witness :
  match CustomerHome.checkAuth Fixtures.no_env (Some 200) Fixtures.directory
                               Scenario.requested with
  | CustomerHome.Redirect _ => False
  | CustomerHome.Shown c page =>
      Accounts.cust_id c = 7
      /\ List.length (Customer.shown_invoices page) = 1%nat
      /\ forall v, In v (Customer.shown_invoices page) ->
                   Store.customer_id (Store.view_invoice v) = Accounts.cust_id c
  end.
Proof.
  destruct (customer_checkAuth_shows_own_invoices
              Fixtures.no_env (Some 200) Fixtures.directory Scenario.requested) as [H _].
  destruct (CustomerHome.checkAuth Fixtures.no_env (Some 200) Fixtures.directory
                                   Scenario.requested) as [path | c page] eqn:E.
  - discriminate E.
  - injection E as <- <-.
    split; [reflexivity | split; [reflexivity|]].
    intros v Hv; apply H; exact Hv.
Defined.

(** ** Signing up and signing in *)

Section SigningIn.
Import Store Ledger Accounts.

(** What a customer signup with a successful insert stores. *)
Lemma handleSignup_stores_one_profile_aux env userId userType formData t :
  userType <> "business"%string -> fault env 0%nat = None ->
  customers (fst (fst (Signup.handleSignup env (AuthUser userId) userType formData t)))
  = customers t
    ++ [mkCustomerRow (next_customer_id t) (Some userId) (Signup.name formData)
                      (Signup.phone formData) (Signup.email formData) None]
  /\ user_roles (fst (fst (Signup.handleSignup env (AuthUser userId) userType formData t)))
     = user_roles t.
Proof.
  intros Hu F0; unfold Signup.handleSignup; rewrite F0.
  apply String.eqb_neq in Hu; rewrite Hu; split; reflexivity.
Qed.

(** X11.  [handleSignup] never writes a role.  When the account cannot
    be created it stores nothing and pushes no path.  When the account is
    created and the insert succeeds, it stores exactly one profile, of the
    type chosen, attached to the new account, with the phone exactly as
    typed, and leaves the other profile table as it was. *)
Theorem handleSignup_stores_one_profile env reply userType formData t :
  let t' := fst (fst (Signup.handleSignup env reply userType formData t)) in
  let route := snd (Signup.handleSignup env reply userType formData t) in
  user_roles t' = user_roles t
  /\ (forall message, reply = AuthFailed message -> t' = t /\ route = None)
  /\ (forall userId,
         reply = AuthUser userId -> fault env 0%nat = None ->
         (userType = "business"%string ->
          customers t' = customers t
          /\ businesses t'
             = businesses t
               ++ [mkBusinessRow (next_business_id t) userId (Signup.businessName formData)
                                 (Signup.email formData) (Signup.phone formData)
                                 (Signup.gstNumber formData)])
         /\ (userType <> "business"%string ->
             businesses t' = businesses t
             /\ customers t'
                = customers t
                  ++ [mkCustomerRow (next_customer_id t) (Some userId) (Signup.name formData)
                                    (Signup.phone formData) (Signup.email formData) None])).
Proof.
  intros t' route; subst t' route; unfold Signup.handleSignup.
  split; [|split].
  - destruct reply as [message|userId]; [reflexivity|].
    destruct (userType =? "business")%string, (fault env 0%nat); reflexivity.
  - intros message ->; split; reflexivity.
  - intros userId -> F0; rewrite F0; split; intro Hu.
    + rewrite Hu; split; reflexivity.
    + apply String.eqb_neq in Hu; rewrite Hu; split; reflexivity.
Qed.

(** X12.  Once the account is created, [handleSignup] announces success
    and pushes /login whatever the insert of the profile returned: when the
    insert returns an error, the tables are as they were and the account
    has no profile. *)
Theorem handleSignup_announces_success_without_profile env userId userType formData t :
  snd (Signup.handleSignup env (AuthUser userId) userType formData t) = Some "/login"%string
  /\ snd (fst (Signup.handleSignup env (AuthUser userId) userType formData t))
     = "Signup successful! Please check your email to verify your account."%string
  /\ (fault env 0%nat <> None ->
      fst (fst (Signup.handleSignup env (AuthUser userId) userType formData t)) = t).
Proof.
  unfold Signup.handleSignup; split; [reflexivity | split; [reflexivity|]].
  intro F0; cbn [fst].
  destruct (fault env 0%nat); [|elim F0; reflexivity].
  destruct (userType =? "business")%string; reflexivity.
Qed.

(** X13.  A customer who signed up with a phone typed without "+" is
    never found by [handleAddCustomer]: whatever a business types, the run
    stores no link or links a customer with another key than the
    signed-up row's. *)
Theorem signed_up_bare_phone_is_never_linked
        (parseFloat parseInt : string -> option Z)
        env userId userType formData t env' businessId n d :
  NoDup (map cust_id (customers t)) ->
  userType <> "business"%string -> fault env 0%nat = None ->
  String.prefix "+" (Signup.phone formData) = false ->
  let t1 := fst (fst (Signup.handleSignup env (AuthUser userId) userType formData t)) in
  let d' := snd (fst (BusinessAdmin.handleAddCustomer parseFloat parseInt env' businessId n t1 d)) in
  In (mkCustomerRow (next_customer_id t) (Some userId) (Signup.name formData)
                    (Signup.phone formData) (Signup.email formData) None)
     (customers t1)
  /\ (d' = d
      \/ exists customerId,
          customerId <> next_customer_id t
          /\ business_customers d'
             = business_customers d
               ++ [mkBusinessCustomer businessId customerId
                                      (js_or (parseFloat (BusinessAdmin.creditLimit n)) 0)
                                      (parseInt (BusinessAdmin.paymentTerms n))]).
Proof.
  intros Hn Hu F0 Hp t1 d'.
  destruct (handleSignup_stores_one_profile_aux env userId userType formData t Hu F0) as [Hc _].
  fold t1 in Hc.
  assert (Hin : In (mkCustomerRow (next_customer_id t) (Some userId) (Signup.name formData)
                                  (Signup.phone formData) (Signup.email formData) None)
                   (customers t1))
    by (rewrite Hc; apply in_or_app; right; left; reflexivity).
  split; [exact Hin|].
  assert (Hnd : NoDup (map cust_id (customers t1))).
  { rewrite Hc, map_app; cbn [map cust_id].
    apply NoDup_app; [exact Hn | repeat constructor; simpl; tauto |].
    intros k Hk [<- | []].
    apply in_map_iff in Hk; destruct Hk as [c [Hk Hcin]].
    apply next_customer_id_unused in Hcin; lia. }
  exact (link_avoids_bare_phone parseFloat parseInt env' businessId n t1 d _ Hnd Hin Hp).
Qed.

End SigningIn.

Section RoleGate.
Import Store Ledger Accounts.

(** X14.  Each sign-in handler pushes its dashboard exactly when the
    account was authenticated and its one role row names the handler's
    role, and then leaves that account's session.  When it does not push,
    an authenticated account is signed out (if the sign-out call works)
    with the refusal shown; a failed authentication leaves the session the
    browser had and shows the service's message.  In every case the form
    is enabled again. *)
Theorem sign_in_pushes_only_for_the_matching_role env reply signOutError before t p :
  (let run := Login.handleBusinessLogin env reply signOutError before t p in
   (Login.pushed run = Some "/business"%string
    <-> exists id r, reply = AuthUser id /\ roleData env id t = Some r
                     /\ role r = "business"%string)
   /\ (Login.pushed run = None \/ Login.pushed run = Some "/business"%string)
   /\ (forall id, reply = AuthUser id -> Login.pushed run <> None -> Login.session run = Some id)
   /\ (forall id, reply = AuthUser id -> Login.pushed run = None -> signOutError = None ->
                  Login.session run = None
                  /\ Login.error (Login.page run)
                     = "This account is not registered as a business"%string)
   /\ (forall message, reply = AuthFailed message ->
                       Login.pushed run = None /\ Login.session run = before
                       /\ Login.error (Login.page run) = message)
   /\ Login.loading (Login.page run) = false)
  /\ (let run := Login.handleVerifyOTP env reply signOutError before t p in
      (Login.pushed run = Some "/customer"%string
       <-> exists id r, reply = AuthUser id /\ roleData env id t = Some r
                        /\ role r = "customer"%string)
      /\ (Login.pushed run = None \/ Login.pushed run = Some "/customer"%string)
      /\ (forall id, reply = AuthUser id -> Login.pushed run <> None -> Login.session run = Some id)
      /\ (forall id, reply = AuthUser id -> Login.pushed run = None -> signOutError = None ->
                     Login.session run = None
                     /\ Login.error (Login.page run)
                        = "This account is not registered as a customer"%string)
      /\ (forall message, reply = AuthFailed message ->
                          Login.pushed run = None /\ Login.session run = before
                          /\ Login.error (Login.page run) = message)
      /\ Login.loading (Login.page run) = false).
Proof.
  split; intro run; subst run;
    unfold Login.handleBusinessLogin, Login.handleVerifyOTP;
    (destruct reply as [message|id];
     [|destruct (roleData env id t) as [r|] eqn:Hr;
       [destruct (role r =? _)%string eqn:Hb|]]);
    cbn [Login.pushed Login.session Login.page Login.finish Login.loading Login.error];
    (split; [split|split; [|split; [|split; [|split]]]]).
  all: try reflexivity.
  all: try (intro H; discriminate H).
  all: try (left; reflexivity).
  all: try (right; reflexivity).
  all: try (intros [id' [r' [Hq [Hr' Hrole]]]]; try discriminate Hq;
            injection Hq as <-; rewrite Hr in Hr'; try discriminate Hr';
            injection Hr' as <-; apply String.eqb_neq in Hb; contradiction).
  all: try (intros _; exists id, r; apply String.eqb_eq in Hb; repeat split; assumption).
  all: try (intros ? Hq; discriminate Hq).
  all: try (intros ? Hq; injection Hq as <-; repeat split; reflexivity).
  all: try (intros ? Hq Hp; first [discriminate Hq | elim Hp; reflexivity
                                  | injection Hq as <-; reflexivity]).
  all: try (intros ? Hq Hp Hs; first [discriminate Hq | discriminate Hp
                                     | rewrite Hs; split; reflexivity]).
Qed.

(** X15.  The home page agrees with the sign-in handlers: when a handler
    has pushed a dashboard, [checkUser], given the session the handler
    left and the same answer of the role select, pushes the same path. *)
Theorem home_follows_sign_in env reply signOutError before t p :
  (forall path,
      Login.pushed (Login.handleBusinessLogin env reply signOutError before t p) = Some path ->
      Home.checkUser env (Login.session (Login.handleBusinessLogin env reply signOutError before t p)) t
      = path)
  /\ (forall path,
         Login.pushed (Login.handleVerifyOTP env reply signOutError before t p) = Some path ->
         Home.checkUser env (Login.session (Login.handleVerifyOTP env reply signOutError before t p)) t
         = path).
Proof.
  split; intros path; unfold Login.handleBusinessLogin, Login.handleVerifyOTP, Home.checkUser;
    (destruct reply as [message|id]; [intro H; discriminate H|]);
    (destruct (roleData env id t) as [r|] eqn:Hr; [|intro H; discriminate H]);
    destruct (role r =? _)%string eqn:Hb;
    cbn [Login.pushed Login.session]; intro H; try discriminate H;
    injection H as <-; rewrite Hr.
  - rewrite Hb; reflexivity.
  - apply String.eqb_eq in Hb; rewrite Hb; reflexivity.
Qed.

(** X16.  [handleSignup] writes no role, and the sign-in handlers read
    the role table: an account that had no role row before signing up is
    refused by both sign-in handlers afterwards, and the home page sends it
    to /login. *)
Theorem signed_up_account_is_refused
        env userId userType formData t env' signOutError before p :
  filter (fun r => role_user_id r =? userId) (user_roles t) = [] ->
  let t' := fst (fst (Signup.handleSignup env (AuthUser userId) userType formData t)) in
  Login.pushed (Login.handleBusinessLogin env' (AuthUser userId) signOutError before t' p) = None
  /\ Login.error (Login.page (Login.handleBusinessLogin env' (AuthUser userId) signOutError
                                                        before t' p))
     = "This account is not registered as a business"%string
  /\ Login.pushed (Login.handleVerifyOTP env' (AuthUser userId) signOutError before t' p) = None
  /\ Login.error (Login.page (Login.handleVerifyOTP env' (AuthUser userId) signOutError
                                                    before t' p))
     = "This account is not registered as a customer"%string
  /\ Home.checkUser env' (Some userId) t' = "/login"%string.
Proof.
  intros Hnone t'.
  assert (Hr : roleData env' userId t' = None).
  { unfold roleData; destruct (fault env' 0%nat); [reflexivity|].
    replace (user_roles t') with (user_roles t); [rewrite Hnone; reflexivity|].
    subst t'; unfold Signup.handleSignup.
    destruct (userType =? "business")%string, (fault env 0%nat); reflexivity. }
  unfold Login.handleBusinessLogin, Login.handleVerifyOTP, Home.checkUser; rewrite Hr.
  repeat split.
Qed.

(** X17.  The home page routes by what [getUserRole] returns: to
    /business for "business", to /customer for "customer", and to /login
    for any other role, an empty role and no role. *)
Theorem checkUser_routes_by_getUserRole env user t :
  Home.checkUser env user t
  = match getUserRole env user t with
    | Some r =>
        if (r =? "business")%string then "/business"%string
        else if (r =? "customer")%string then "/customer"%string
        else "/login"%string
    | None => "/login"%string
    end.
Proof.
  unfold Home.checkUser, getUserRole.
  destruct user as [id|]; [|reflexivity].
  destruct (roleData env id t) as [r|]; [|reflexivity].
  destruct (role r =? "")%string eqn:E; [|reflexivity].
  apply String.eqb_eq in E; rewrite E; reflexivity.
Qed.

End RoleGate.

Lemma handleSignup_stores_one_profile_witness :
  Accounts.customers
    (fst (fst (Signup.handleSignup
                 Fixtures.no_env (Accounts.AuthUser 300) "customer"
                 (Signup.mkFormData "ravi@mail.test" "secret" "9000000001" "Ravi" "" "")
                 Fixtures.directory)))
  = Accounts.customers Fixtures.directory
    ++ [Accounts.mkCustomerRow 8 (Some 300) "Ravi" "9000000001" "ravi@mail.test" None].
Proof.
  destruct (handleSignup_stores_one_profile
              Fixtures.no_env (Accounts.AuthUser 300) "customer"
              (Signup.mkFormData "ravi@mail.test" "secret" "9000000001" "Ravi" "" "")
              Fixtures.directory) as [_ [_ H]].
  destruct (H 300 eq_refl eq_refl) as [_ Hc].
  apply Hc; discriminate.
Defined.

Lemma handleSignup_announces_success_without_profile_witness :
  Signup.handleSignup Fixtures.all_failing (Accounts.AuthUser 300) "business"
                      (Signup.mkFormData "ravi@mail.test" "secret" "9000000001" "Ravi"
                                         "Ravi Traders" "GST-2")
                      Fixtures.directory
  = (Fixtures.directory,
     "Signup successful! Please check your email to verify your account."%string,
     Some "/login"%string).
Proof.
  destruct (handleSignup_announces_success_without_profile
              Fixtures.all_failing 300 "business"
              (Signup.mkFormData "ravi@mail.test" "secret" "9000000001" "Ravi"
                                 "Ravi Traders" "GST-2")
              Fixtures.directory) as [Hr [Hm Ht]].
  rewrite (surjective_pairing (Signup.handleSignup _ _ _ _ _)).
  rewrite (surjective_pairing (fst (Signup.handleSignup _ _ _ _ _))).
  rewrite Hr, Hm, Ht; [reflexivity | discriminate].
Defined.

Lemma signed_up_bare_phone_is_never_linked_witness :
  let t1 := fst (fst (Signup.handleSignup
                        Fixtures.no_env (Accounts.AuthUser 300) "customer"
                        (Signup.mkFormData "ravi@mail.test" "secret" "9000000001" "Ravi" "" "")
                        Fixtures.directory)) in
  exists customerId,
    customerId <> 8
    /\ Store.business_customers
         (snd (fst (BusinessAdmin.handleAddCustomer
                      Fixtures.parse_number Fixtures.parse_number Fixtures.no_env 1
                      (BusinessAdmin.mkNewCustomer "9000000001" "Ravi" "" "" "" "30")
                      t1 Store.empty_db)))
       = [Store.mkBusinessCustomer 1 customerId 0 (Some 30)].
Proof.
  intro t1.
  destruct (signed_up_bare_phone_is_never_linked
              Fixtures.parse_number Fixtures.parse_number
              Fixtures.no_env 300 "customer"
              (Signup.mkFormData "ravi@mail.test" "secret" "9000000001" "Ravi" "" "")
              Fixtures.directory Fixtures.no_env 1
              (BusinessAdmin.mkNewCustomer "9000000001" "Ravi" "" "" "" "30")
              Store.empty_db) as [_ [H | H]].
  - repeat constructor; simpl; tauto.
  - discriminate.
  - reflexivity.
  - reflexivity.
  - discriminate H.
  - exact H.
Defined.

Lemma sign_in_pushes_only_for_the_matching_role_witness :
  Login.pushed (Login.handleBusinessLogin
                  Fixtures.no_env (Accounts.AuthUser 100) None None Fixtures.directory
                  (Login.mkPage "owner@acme.test" "secret" "" "" false true ""))
  = Some "/business"%string
  /\ Login.session (Login.handleBusinessLogin
                      Fixtures.no_env (Accounts.AuthUser 200) None None Fixtures.directory
                      (Login.mkPage "asha@mail.test" "secret" "" "" false true ""))
     = None.
Proof.
  split.
  - destruct (sign_in_pushes_only_for_the_matching_role
                Fixtures.no_env (Accounts.AuthUser 100) None None Fixtures.directory
                (Login.mkPage "owner@acme.test" "secret" "" "" false true ""))
      as [[Hiff _] _].
    apply Hiff; exists 100, (Accounts.mkRoleRow 100 "business").
    split; [reflexivity | split; reflexivity].
  - destruct (sign_in_pushes_only_for_the_matching_role
                Fixtures.no_env (Accounts.AuthUser 200) None None Fixtures.directory
                (Login.mkPage "asha@mail.test" "secret" "" "" false true ""))
      as [[_ [_ [_ [Hout _]]]] _].
    apply (Hout 200); reflexivity.
Defined.

Lemma home_follows_sign_in_witness :
  Home.checkUser
    Fixtures.no_env
    (Login.session (Login.handleVerifyOTP
                      Fixtures.no_env (Accounts.AuthUser 200) None None Fixtures.directory
                      (Login.mkPage "" "" "9876543210" "123456" true true "")))
    Fixtures.directory
  = "/customer"%string.
Proof.
  destruct (home_follows_sign_in
              Fixtures.no_env (Accounts.AuthUser 200) None None Fixtures.directory
              (Login.mkPage "" "" "9876543210" "123456" true true "")) as [_ H].
  apply H; reflexivity.
Defined.

Lemma signed_up_account_is_refused_witness :
  let t' := fst (fst (Signup.handleSignup
                        Fixtures.no_env (Accounts.AuthUser 300) "business"
                        (Signup.mkFormData "ravi@mail.test" "secret" "9000000001" "Ravi"
                                           "Ravi Traders" "GST-2")
                        Fixtures.directory)) in
  Login.pushed (Login.handleBusinessLogin
                  Fixtures.no_env (Accounts.AuthUser 300) None None t'
                  (Login.mkPage "ravi@mail.test" "secret" "" "" false true ""))
  = None
  /\ Home.checkUser Fixtures.no_env (Some 300) t' = "/login"%string.
Proof.
  intro t'.
  destruct (signed_up_account_is_refused
              Fixtures.no_env 300 "business"
              (Signup.mkFormData "ravi@mail.test" "secret" "9000000001" "Ravi"
                                 "Ravi Traders" "GST-2")
              Fixtures.directory Fixtures.no_env None None
              (Login.mkPage "ravi@mail.test" "secret" "" "" false true ""))
    as [H1 [_ [_ [_ H5]]]].
  - reflexivity.
  - split; [exact H1 | exact H5].
Defined.

(** ** What the pages display *)

Section Displayed.
Import Store Ledger Accounts.

Lemma js_or_zero (x : Z) : js_or (Some x) 0 = x.
Proof. unfold js_or; destruct (x =? 0) eqn:E; [apply Z.eqb_eq in E; congruence | reflexivity]. Qed.

Lemma filter_unpaid_views (d : DB) (l : list Invoice) :
  filter CustomerHome.unpaid (map (with_items d) l) = map (with_items d) (filter CustomerHome.owing l).
Proof.
  induction l as [|inv l IH]; [reflexivity|].
  cbn [map filter]; unfold CustomerHome.unpaid at 1; cbn [view_invoice with_items].
  fold (CustomerHome.owing inv); destruct (CustomerHome.owing inv); cbn [map]; rewrite IH; reflexivity.
Qed.

Lemma filter_views (d : DB) (f : Invoice -> bool) (l : list Invoice) :
  filter (fun v => f (view_invoice v)) (map (with_items d) l) = map (with_items d) (filter f l).
Proof.
  induction l as [|x l IH]; [reflexivity|].
  cbn [map filter view_invoice with_items]; destruct (f x); cbn [map]; rewrite IH; reflexivity.
Qed.

(** Paying one invoice of a list with distinct keys takes it, and nothing
    else, out of the unpaid ones; their order stays. *)
Lemma paying_one (k amount : Z) (l : list Invoice) (inv : Invoice) :
  NoDup (map inv_id l) -> In inv l -> inv_id inv = k -> status inv <> paid ->
  let l' := map (fun x => if inv_id x =? k then set_paid amount x else x) l in
  filter CustomerHome.owing l'
  = filter (fun x => negb (inv_id x =? k)) (filter CustomerHome.owing l)
  /\ List.length (filter CustomerHome.owing l) = S (List.length (filter CustomerHome.owing l')).
Proof.
  intros Hn Hin Hk Hs l'; subst l'.
  induction l as [|x l IH]; [destruct Hin|].
  cbn [map] in Hn; inversion Hn as [|? ? Hx Hl]; subst.
  assert (Hrest : ~ In (inv_id x) (map inv_id l) ->
                  map (fun y => if inv_id y =? inv_id x then set_paid amount y else y) l = l).
  { clear; intro H; induction l as [|y l IH]; [reflexivity|].
    cbn [map]; destruct (inv_id y =? inv_id x) eqn:E.
    - apply Z.eqb_eq in E; elim H; left; exact E.
    - rewrite IH; [reflexivity | intro H'; apply H; right; exact H']. }
  destruct Hin as [-> | Hin].
  - cbn [map filter]; rewrite Z.eqb_refl, (Hrest Hx).
    assert (Ho : CustomerHome.owing inv = true)
      by (unfold CustomerHome.owing; destruct (status inv); try reflexivity; elim Hs; reflexivity).
    rewrite Ho; cbn [CustomerHome.owing set_paid status invoice_status_eqb negb filter List.length].
    rewrite Z.eqb_refl; cbn [negb].
    split; [|reflexivity].
    symmetry; apply filter_all; intros y Hy.
    apply filter_In in Hy; destruct Hy as [Hy _].
    apply Bool.negb_true_iff, Z.eqb_neq; intro E; apply Hx; rewrite <- E.
    apply in_map; exact Hy.
  - assert (Hne : inv_id x <> inv_id inv)
      by (intro E; apply Hx; rewrite E; apply in_map; exact Hin).
    specialize (IH Hl Hin); destruct IH as [IH1 IH2].
    cbn [map filter]; apply Z.eqb_neq in Hne; rewrite Hne.
    destruct (CustomerHome.owing x); cbn [filter List.length].
    + rewrite Hne; cbn [negb]; split; [rewrite IH1; reflexivity | f_equal; exact IH2].
    + split; [exact IH1 | exact IH2].
Qed.

Lemma filter_paying (k amount customerId : Z) (l : list Invoice) :
  filter (fun inv => customer_id inv =? customerId)
         (map (fun x => if inv_id x =? k then set_paid amount x else x) l)
  = map (fun x => if inv_id x =? k then set_paid amount x else x)
        (filter (fun inv => customer_id inv =? customerId) l).
Proof.
  induction l as [|x l IH]; [reflexivity|].
  cbn [map filter].
  replace (customer_id (if inv_id x =? k then set_paid amount x else x)) with (customer_id x)
    by (destruct (inv_id x =? k); reflexivity).
  destruct (customer_id x =? customerId); cbn [map]; rewrite IH; reflexivity.
Qed.

Lemma NoDup_map_filter {A : Type} (key : A -> Z) (f : A -> bool) (l : list A) :
  NoDup (map key l) -> NoDup (map key (filter f l)).
Proof.
  induction l as [|x l IH]; [intro H; exact H|].
  cbn [map filter]; intro H; inversion H as [|? ? Hx Hl]; subst.
  destruct (f x); [|apply IH; exact Hl].
  cbn [map]; constructor; [|apply IH; exact Hl].
  intro Hin; apply Hx.
  apply in_map_iff in Hin; destruct Hin as [y [Hy Hin]].
  apply filter_In in Hin; rewrite <- Hy; apply in_map; tauto.
Qed.

(** X18.  When the business marks an unpaid invoice of a customer paid
    (invoice keys distinct, the update succeeding), the customer's next
    load shows as unpaid the invoices that were unpaid before, in the
    same order, without that invoice.  The total due is summed over those,
    one pending payment fewer is counted, and as many invoices as before
    are shown. *)
Theorem paying_takes_the_invoice_out_of_the_total_due env envL customerId amount d inv p :
  NoDup (map inv_id (invoices d)) ->
  In inv (invoices d) -> customer_id inv = customerId -> status inv <> paid ->
  fault env 0%nat = None -> fault envL 0%nat = None ->
  let before := Customer.loadData envL customerId d p in
  let after :=
    Customer.loadData envL customerId (fst (Business.markAsPaid env (inv_id inv) amount d)) p in
  let others :=
    filter (fun v => negb (inv_id (view_invoice v) =? inv_id inv))
           (filter CustomerHome.unpaid (Customer.shown_invoices before)) in
  In (with_items d inv) (filter CustomerHome.unpaid (Customer.shown_invoices before))
  /\ filter CustomerHome.unpaid (Customer.shown_invoices after) = others
  /\ CustomerHome.totalDue after
     = fold_left (fun sum v => sum + total_amount (view_invoice v)) others 0
  /\ CustomerHome.pendingPayment before = S (CustomerHome.pendingPayment after)
  /\ CustomerHome.totalInvoices after = CustomerHome.totalInvoices before.
Proof.
  intros Hn Hin Hc Hs F0 FL before after others.
  assert (Hinv : invoices (fst (Business.markAsPaid env (inv_id inv) amount d))
                 = map (fun x => if inv_id x =? inv_id inv then set_paid amount x else x)
                       (invoices d)).
  { unfold Business.markAsPaid; rewrite F0; cbn [fst].
    destruct (fault env 1%nat); reflexivity. }
  assert (Hit : invoice_items (fst (Business.markAsPaid env (inv_id inv) amount d))
                = invoice_items d).
  { unfold Business.markAsPaid; rewrite F0; cbn [fst].
    destruct (fault env 1%nat); reflexivity. }
  set (mine := filter (fun x => customer_id x =? customerId) (invoices d)).
  set (pay := fun x => if inv_id x =? inv_id inv then set_paid amount x else x).
  assert (Hin' : In inv (rev mine))
    by (apply in_rev; rewrite rev_involutive; apply filter_In; split;
        [exact Hin | apply Z.eqb_eq; exact Hc]).
  assert (Hn' : NoDup (map inv_id (rev mine)))
    by (rewrite map_rev; apply NoDup_rev, NoDup_map_filter; exact Hn).
  destruct (paying_one (inv_id inv) amount (rev mine) inv Hn' Hin' eq_refl Hs) as [P1 P2].
  assert (Hb : Customer.shown_invoices before = map (with_items d) (rev mine))
    by (subst before; unfold Customer.loadData; rewrite FL; reflexivity).
  assert (Ha : Customer.shown_invoices after = map (with_items d) (map pay (rev mine))).
  { subst after; unfold Customer.loadData; rewrite FL.
    cbn [Customer.shown_invoices query or_empty].
    rewrite Hinv, filter_paying; fold mine; fold pay; rewrite <- map_rev.
    apply map_ext; intro x; unfold with_items, items_of; rewrite Hit; reflexivity. }
  assert (Hu : filter CustomerHome.unpaid (Customer.shown_invoices after) = others).
  { subst others; rewrite Ha, Hb, !filter_unpaid_views.
    rewrite (filter_views d (fun x => negb (inv_id x =? inv_id inv))).
    fold pay in P1; rewrite P1; reflexivity. }
  split; [|split; [exact Hu | split; [|split]]].
  - rewrite Hb, filter_unpaid_views; apply in_map, filter_In; split; [exact Hin'|].
    unfold CustomerHome.owing; destruct (status inv); try reflexivity; elim Hs; reflexivity.
  - unfold CustomerHome.totalDue; rewrite Hu; reflexivity.
  - unfold CustomerHome.pendingPayment; rewrite Ha, Hb, !filter_unpaid_views, !length_map.
    exact P2.
  - unfold CustomerHome.totalInvoices; rewrite Ha, Hb, !length_map; reflexivity.
Qed.

(** X19.  The "New Total" the edit modal displays is the total the
    invoice gets when the request submitted from that modal is approved
    (submit insert and approval calls succeeding), whatever the items'
    quantities and prices say. *)
Theorem new_total_shown_is_the_approved_total env1 env2 p d invoice :
  Customer.selectedInvoice p = Some invoice ->
  fault env1 0%nat = None -> succeeds env2 ->
  exists r,
    invoice_edit_requests (fst (fst (Customer.submitEditRequest env1 p d)))
    = invoice_edit_requests d ++ [r]
    /\ forall inv',
        In inv' (invoices (fst (Business.approveClick
                                  env2 r (fst (fst (Customer.submitEditRequest env1 p d)))))) ->
        inv_id inv' = inv_id (view_invoice invoice) ->
        total_amount inv' = CustomerHome.newTotal p.
Proof.
  intros Hsel F1 Hs.
  unfold Customer.submitEditRequest; rewrite Hsel, F1; cbn [fst].
  eexists; split; [reflexivity|].
  unfold Business.approveClick; cbn [req_id req_invoice_id requested_items].
  match goal with
  | |- context [Business.approveEditRequest ?e ?q ?k ?l ?x] =>
      destruct (approveEditRequest_effect e q k l x Hs) as [_ [Hinv _]]
  end.
  rewrite Hinv; intros inv' Hin' Hid.
  apply in_map_iff in Hin'; destruct Hin' as [inv0 [<- _]].
  destruct (inv_id inv0 =? inv_id (view_invoice invoice)) eqn:E.
  - cbn [total_amount set_total]; unfold price_sum, CustomerHome.newTotal.
    apply fold_sum_ext, Forall_forall; intros item _; symmetry; apply js_or_zero.
  - apply Z.eqb_neq in E; contradiction.
Qed.

(** X20.  The total the create-invoice form displays is the total stored
    with the invoice when the handler shows no error. *)
Theorem preview_total_is_the_stored_total
        (parseFloat : string -> Z) env businessId customerId date rows d :
  snd (Business.handleCreateInvoice parseFloat env businessId customerId date rows d) = Silent ->
  exists inv,
    invoices (fst (Business.handleCreateInvoice parseFloat env businessId customerId date rows d))
    = invoices d ++ [inv]
    /\ total_amount inv = BusinessAdmin.previewTotal parseFloat rows.
Proof.
  unfold Business.handleCreateInvoice.
  destruct (fault env 1%nat); [discriminate|].
  destruct (fault env 2%nat); [discriminate|]; intros _.
  eexists; split; [reflexivity|].
  cbn [total_amount]; unfold BusinessAdmin.previewTotal.
  apply (fold_sum_ext
           (fun item => parseFloat (Business.row_quantity item)
                        * parseFloat (Business.row_unit_price item))
           (fun item => js_or (Some (parseFloat (Business.row_quantity item))) 0
                        * js_or (Some (parseFloat (Business.row_unit_price item))) 0)).
  apply Forall_forall; intros item _; rewrite !js_or_zero; reflexivity.
Qed.

End Displayed.

Lemma paying_takes_the_invoice_out_of_the_total_due_witness :
  let before := Customer.loadData Fixtures.no_env 7 Scenario.requested Scenario.blank_page in
  let after :=
    Customer.loadData Fixtures.no_env 7
                      (fst (Business.markAsPaid Fixtures.no_env 1 20 Scenario.requested))
                      Scenario.blank_page in
  filter CustomerHome.unpaid (Customer.shown_invoices after) = []
  /\ CustomerHome.totalDue after = 0
  /\ CustomerHome.pendingPayment before = S (CustomerHome.pendingPayment after)
  /\ CustomerHome.totalInvoices after = CustomerHome.totalInvoices before.
Proof.
  intros before after.
  destruct (paying_takes_the_invoice_out_of_the_total_due
              Fixtures.no_env Fixtures.no_env 7 20 Scenario.requested
              (Store.mkInvoice 1 1 7 "INV-1700000000000" 19000 19015 20 0 Store.sent None)
              Scenario.blank_page) as [_ [Hu [Ht [Hp Hi]]]].
  - repeat constructor; simpl; tauto.
  - left; reflexivity.
  - reflexivity.
  - discriminate.
  - reflexivity.
  - reflexivity.
  - split; [exact Hu | split; [exact Ht | split; [exact Hp | exact Hi]]].
Defined.

Lemma new_total_shown_is_the_approved_total_witness :
  CustomerHome.newTotal Scenario.editing_page = 30
  /\ exists r,
      Store.invoice_edit_requests
        (fst (fst (Customer.submitEditRequest Fixtures.no_env Scenario.editing_page
                                              Scenario.invoiced)))
      = [r]
      /\ forall inv',
          In inv' (Store.invoices
                     (fst (Business.approveClick
                             Fixtures.no_env r
                             (fst (fst (Customer.submitEditRequest
                                          Fixtures.no_env Scenario.editing_page
                                          Scenario.invoiced)))))) ->
          Store.inv_id inv' = 1 ->
          Store.total_amount inv' = CustomerHome.newTotal Scenario.editing_page.
Proof.
  split; [reflexivity|].
  apply (new_total_shown_is_the_approved_total
           Fixtures.no_env Fixtures.no_env Scenario.editing_page Scenario.invoiced
           Scenario.widget_view).
  - reflexivity.
  - reflexivity.
  - intro k; reflexivity.
Defined.

Lemma preview_total_is_the_stored_total_witness :
  BusinessAdmin.previewTotal Ledger.parse_decimal Scenario.widget_rows = 20
  /\ exists inv,
      Store.invoices (fst (Business.handleCreateInvoice
                             Ledger.parse_decimal Fixtures.no_env 1 7 19000
                             Scenario.widget_rows Scenario.linked))
      = [inv]
      /\ Store.total_amount inv
         = BusinessAdmin.previewTotal Ledger.parse_decimal Scenario.widget_rows.
Proof.
  split; [reflexivity|].
  apply (preview_total_is_the_stored_total
           Ledger.parse_decimal Fixtures.no_env 1 7 19000 Scenario.widget_rows Scenario.linked).
  reflexivity.
Defined.

(** ** Editing rows and items *)

Section Editing.
Import Store Ledger.

Lemma remove_at_last {A : Type} (l : list A) (x : A) :
  remove_at (List.length l) (l ++ [x]) = l.
Proof. induction l as [|y l IH]; [reflexivity | cbn; rewrite IH; reflexivity]. Qed.

Lemma remove_at_in_range {A : Type} (index : nat) (l : list A) :
  (index < List.length l)%nat -> S (List.length (remove_at index l)) = List.length l.
Proof.
  revert index; induction l as [|y l IH]; intros index H; simpl in H; [lia|].
  destruct index; [reflexivity|]; cbn; rewrite IH; [reflexivity | lia].
Qed.

Lemma remove_at_past_end {A : Type} (index : nat) (l : list A) :
  (List.length l <= index)%nat -> remove_at index l = l.
Proof.
  revert index; induction l as [|y l IH]; intros index H; [destruct index; reflexivity|].
  simpl in H; destruct index; [lia|]; cbn; rewrite IH; [reflexivity | lia].
Qed.

Lemma update_at_past_end {A : Type} (index : nat) (f : A -> A) (l : list A) :
  (List.length l <= index)%nat -> update_at index f l = l.
Proof.
  revert index; induction l as [|y l IH]; intros index H; [destruct index; reflexivity|].
  simpl in H; destruct index; [lia|]; cbn; rewrite IH; [reflexivity | lia].
Qed.

Lemma update_at_same {A : Type} (index : nat) (f : A -> A) (l : list A) :
  nth_error (update_at index f l) index = option_map f (nth_error l index).
Proof.
  revert index; induction l as [|y l IH]; intro index; destruct index; try reflexivity.
  cbn; apply IH.
Qed.

Lemma update_at_other {A : Type} (index j : nat) (f : A -> A) (l : list A) :
  j <> index -> nth_error (update_at index f l) j = nth_error l j.
Proof.
  revert index j; induction l as [|y l IH]; intros index j H;
    destruct index, j; try reflexivity; try (elim H; reflexivity).
  cbn; apply IH; intro E; apply H; rewrite E; reflexivity.
Qed.

Lemma map_update_at {A B : Type} (g : A -> B) (index : nat) (f : A -> A) (l : list A) :
  (forall x, g (f x) = g x) -> map g (update_at index f l) = map g l.
Proof.
  intro H; revert index; induction l as [|y l IH]; intro index; destruct index;
    try reflexivity; cbn; [rewrite H | rewrite IH]; reflexivity.
Qed.

(** X21.  On the rows of the create-invoice form: removing the row just
    added gives the rows back; removing a row that exists leaves one row
    fewer; an update keeps the number of rows, sets the named field of the
    row at the index and leaves every other row alone; an index past the
    end changes nothing. *)
Theorem form_rows_editing (rows : list Business.FormRow) :
  Business.removeInvoiceItem (List.length rows) (Business.addInvoiceItem rows) = rows
  /\ (forall index, (index < List.length rows)%nat ->
                    S (List.length (Business.removeInvoiceItem index rows)) = List.length rows)
  /\ (forall index field value,
         List.length (Business.updateInvoiceItem index field value rows) = List.length rows
         /\ (forall row, nth_error rows index = Some row ->
                         nth_error (Business.updateInvoiceItem index field value rows) index
                         = Some (Business.set_field field value row))
         /\ (forall j, j <> index ->
                       nth_error (Business.updateInvoiceItem index field value rows) j
                       = nth_error rows j))
  /\ (forall index, (List.length rows <= index)%nat ->
                    Business.removeInvoiceItem index rows = rows
                    /\ forall field value,
                        Business.updateInvoiceItem index field value rows = rows).
Proof.
  unfold Business.removeInvoiceItem, Business.addInvoiceItem, Business.updateInvoiceItem.
  split; [apply remove_at_last|].
  split; [intros index; apply remove_at_in_range|].
  split.
  - intros index field value; split; [apply update_at_length|].
    split; [|intros j; apply update_at_other].
    intros row Hrow; rewrite update_at_same, Hrow; reflexivity.
  - intros index H; split; [apply remove_at_past_end; exact H|].
    intros field value; apply update_at_past_end; exact H.
Qed.

Variable parseFloat : string -> Z.

(** X22.  An edit of a quantity or a unit price in the modal touches the
    one item at the index: it keeps the item's name and invoice, stores
    the number read in the field edited, and recomputes the item's total
    as quantity times unit price whatever it was before; the other items,
    the invoice selected and the number of items stay. *)
Theorem updateEditedItem_recomputes_the_line index field value p item :
  field <> item_name_field ->
  nth_error (Customer.editedItems p) index = Some item ->
  let p' := Customer.updateEditedItem parseFloat index field value p in
  exists item',
    nth_error (Customer.editedItems p') index = Some item'
    /\ item_name item' = item_name item /\ invoice_id item' = invoice_id item
    /\ (field = quantity_field ->
        quantity item' = parseFloat value /\ unit_price item' = unit_price item)
    /\ (field = unit_price_field ->
        unit_price item' = parseFloat value /\ quantity item' = quantity item)
    /\ total_price item' = quantity item' * unit_price item'
    /\ (forall j, j <> index ->
                  nth_error (Customer.editedItems p') j = nth_error (Customer.editedItems p) j)
    /\ Customer.selectedInvoice p' = Customer.selectedInvoice p
    /\ List.length (Customer.editedItems p') = List.length (Customer.editedItems p).
Proof.
  intros Hf Hitem p'; subst p'; unfold Customer.updateEditedItem; cbn [Customer.editedItems].
  eexists; split; [rewrite update_at_same, Hitem; reflexivity|].
  destruct field; [elim Hf; reflexivity | |];
    cbn [Customer.recalculate Customer.set_item_field item_name invoice_id quantity
         unit_price total_price Customer.selectedInvoice];
    rewrite !js_or_zero;
    (repeat split; try reflexivity; try discriminate;
     try (intros j Hj; apply update_at_other; exact Hj); try apply update_at_length).
Qed.

(** X23.  Through the modal a customer can only change quantities and
    prices: after any sequence of such edits the items edited have the
    names and the invoice of the items of the invoice opened, in the same
    order, and the request then submitted proposes as many items as its
    snapshot of the original, with the same names. *)
Theorem modal_edits_keep_the_lines invoice p0 (edits : list (nat * Field * string)) :
  Forall (fun e => snd (fst e) <> item_name_field) edits ->
  let p := fold_left (CustomerHome.typing parseFloat) edits (Customer.openEditModal invoice p0) in
  map item_name (Customer.editedItems p) = map item_name (items invoice)
  /\ map invoice_id (Customer.editedItems p) = map invoice_id (items invoice)
  /\ Customer.selectedInvoice p = Some invoice
  /\ forall env d,
      fault env 0%nat = None ->
      exists r,
        invoice_edit_requests (fst (fst (Customer.submitEditRequest env p d)))
        = invoice_edit_requests d ++ [r]
        /\ original_items r = items invoice
        /\ map item_name (requested_items r) = map item_name (original_items r)
        /\ List.length (requested_items r) = List.length (original_items r).
Proof.
  intros He p.
  assert (H : map item_name (Customer.editedItems p) = map item_name (items invoice)
              /\ map invoice_id (Customer.editedItems p) = map invoice_id (items invoice)
              /\ Customer.selectedInvoice p = Some invoice).
  { subst p.
    assert (G : forall q,
               map item_name (Customer.editedItems q) = map item_name (items invoice)
               /\ map invoice_id (Customer.editedItems q) = map invoice_id (items invoice)
               /\ Customer.selectedInvoice q = Some invoice ->
               map item_name (Customer.editedItems (fold_left (CustomerHome.typing parseFloat) edits q))
               = map item_name (items invoice)
               /\ map invoice_id (Customer.editedItems (fold_left (CustomerHome.typing parseFloat) edits q))
                  = map invoice_id (items invoice)
               /\ Customer.selectedInvoice (fold_left (CustomerHome.typing parseFloat) edits q) = Some invoice).
    { induction He as [|e edits Hfield _ IH]; intros q Hq; [exact Hq|].
      cbn [fold_left]; apply IH.
      destruct Hq as [Hn [Hi Hs]]; destruct e as [[index field] value]; cbn in Hfield.
      unfold CustomerHome.typing, Customer.updateEditedItem;
        cbn [fst snd Customer.editedItems Customer.selectedInvoice].
      split; [|split; [|exact Hs]].
      - rewrite map_update_at; [exact Hn|].
        intro x; destruct field; [elim Hfield; reflexivity | reflexivity | reflexivity].
      - rewrite map_update_at; [exact Hi|].
        intro x; destruct field; reflexivity. }
    apply G; repeat split. }
  destruct H as [Hn [Hi Hs]].
  split; [exact Hn | split; [exact Hi | split; [exact Hs|]]].
  intros env d F0; unfold Customer.submitEditRequest; rewrite Hs, F0; cbn [fst].
  eexists; split; [reflexivity|]; cbn [original_items requested_items].
  split; [reflexivity | split; [exact Hn|]].
  rewrite <- (length_map item_name), Hn, length_map; reflexivity.
Qed.

End Editing.

Lemma form_rows_editing_witness :
  Business.removeInvoiceItem 1 (Business.addInvoiceItem Scenario.widget_rows)
  = Scenario.widget_rows
  /\ Business.updateInvoiceItem 5 Store.quantity_field "9" Scenario.widget_rows
     = Scenario.widget_rows.
Proof.
  destruct (form_rows_editing Scenario.widget_rows) as [Hround [_ [_ Hpast]]].
  split; [exact Hround|].
  destruct (Hpast 5%nat) as [_ Hu]; [simpl; lia | apply Hu].
Defined.

Lemma updateEditedItem_recomputes_the_line_witness :
  exists item',
    nth_error (Customer.editedItems
                 (Customer.updateEditedItem
                    Ledger.parse_decimal 0 Store.unit_price_field "12"
                    (Customer.mkPage 7 [] None true [Store.mkLineItem 1 "Widget" 2 10 999] [])))
              0
    = Some item'
    /\ Store.unit_price item' = 12 /\ Store.quantity item' = 2
    /\ Store.total_price item' = 24.
Proof.
  destruct (updateEditedItem_recomputes_the_line
              Ledger.parse_decimal 0 Store.unit_price_field "12"
              (Customer.mkPage 7 [] None true [Store.mkLineItem 1 "Widget" 2 10 999] [])
              (Store.mkLineItem 1 "Widget" 2 10 999))
    as [item' [Hn [_ [_ [_ [Hp [Ht _]]]]]]].
  - discriminate.
  - reflexivity.
  - destruct (Hp eq_refl) as [Hp1 Hp2].
    exists item'; split; [exact Hn | split; [exact Hp1 | split; [exact Hp2|]]].
    rewrite Ht, Hp1, Hp2; reflexivity.
Defined.

Lemma modal_edits_keep_the_lines_witness :
  let p := fold_left (CustomerHome.typing Ledger.parse_decimal)
                     [(0%nat, Store.quantity_field, "3"%string);
                      (0%nat, Store.unit_price_field, "12"%string);
                      (4%nat, Store.quantity_field, "1"%string)]
                     (Customer.openEditModal Scenario.widget_view Scenario.loaded_page) in
  map Store.item_name (Customer.editedItems p) = ["Widget"%string]
  /\ Customer.editedItems p = [Store.mkLineItem 1 "Widget" 3 12 36].
Proof.
  intro p.
  destruct (modal_edits_keep_the_lines
              Ledger.parse_decimal Scenario.widget_view Scenario.loaded_page
              [(0%nat, Store.quantity_field, "3"%string);
               (0%nat, Store.unit_price_field, "12"%string);
               (4%nat, Store.quantity_field, "1"%string)]) as [Hn _].
  - repeat constructor; discriminate.
  - split; [exact Hn | reflexivity].
Defined.

(** ** What the ledger handlers leave alone, and what they leave behind *)

Section Frames.
Import Store Ledger.

Lemma approve_requests_table env requestId invoiceId requestedItems d :
  invoice_edit_requests
    (fst (Business.approveEditRequest env requestId invoiceId requestedItems d))
  = match fault env 4%nat with
    | None => map (fun r => if req_id r =? requestId
                            then set_reviewed approved (clock env 1%nat) r else r)
                  (invoice_edit_requests d)
    | Some _ => invoice_edit_requests d
    end.
Proof.
  unfold Business.approveEditRequest; cbn [fst].
  destruct (fault env 1%nat), (fault env 2%nat), (fault env 3%nat), (fault env 4%nat);
    reflexivity.
Qed.

Lemma approve_invoices_table env requestId invoiceId requestedItems d :
  invoices (fst (Business.approveEditRequest env requestId invoiceId requestedItems d))
  = match fault env 3%nat with
    | None => map (fun inv => if inv_id inv =? invoiceId
                              then set_total (price_sum requestedItems) (clock env 0%nat) inv
                              else inv)
                  (invoices d)
    | Some _ => invoices d
    end.
Proof.
  unfold Business.approveEditRequest; cbn [fst].
  destruct (fault env 1%nat), (fault env 2%nat), (fault env 3%nat), (fault env 4%nat);
    reflexivity.
Qed.

Lemma next_request_id_unused (d : DB) (r : EditRequest) :
  In r (invoice_edit_requests d) -> req_id r < next_request_id d.
Proof.
  intro H; unfold next_request_id.
  assert (req_id r <= max_id (map req_id (invoice_edit_requests d)))
    by (apply max_id_bound, in_map; exact H).
  lia.
Qed.

(** X24.  The request a submit stores gets a key no stored request has,
    so reviewing it leaves every older request exactly as it was, whether
    the review approves or rejects and whatever its storage calls
    return. *)
Theorem review_of_a_new_request_spares_the_older env1 env2 p d invoice :
  Customer.selectedInvoice p = Some invoice -> fault env1 0%nat = None ->
  exists r,
    invoice_edit_requests (fst (fst (Customer.submitEditRequest env1 p d)))
    = invoice_edit_requests d ++ [r]
    /\ (forall old, In old (invoice_edit_requests d) -> req_id old <> req_id r)
    /\ forall old,
        In old (invoice_edit_requests d) ->
        In old (invoice_edit_requests
                  (fst (Business.approveClick
                          env2 r (fst (fst (Customer.submitEditRequest env1 p d))))))
        /\ In old (invoice_edit_requests
                     (fst (Business.rejectClick
                             env2 r (fst (fst (Customer.submitEditRequest env1 p d)))))).
Proof.
  intros Hsel F1; unfold Customer.submitEditRequest; rewrite Hsel, F1; cbn [fst].
  eexists; split; [reflexivity|]; cbn [req_id].
  assert (Hfresh : forall old, In old (invoice_edit_requests d) ->
                               (req_id old =? next_request_id d) = false).
  { intros old Hold; apply next_request_id_unused in Hold; apply Z.eqb_neq; lia. }
  split; [intros old Hold; apply Z.eqb_neq, Hfresh; exact Hold|].
  intros old Hold; split.
  - unfold Business.approveClick; rewrite approve_requests_table.
    cbn [req_id invoice_edit_requests insert_request].
    destruct (fault env2 4%nat); [apply in_or_app; left; exact Hold|].
    apply in_map_iff; exists old; rewrite (Hfresh old Hold).
    split; [reflexivity | apply in_or_app; left; exact Hold].
  - unfold Business.rejectClick, Business.rejectEditRequest; cbn [fst req_id].
    destruct (fault env2 0%nat);
      cbn [attempt invoice_edit_requests insert_request update_requests];
      [apply in_or_app; left; exact Hold|].
    apply in_map_iff; exists old; rewrite (Hfresh old Hold).
    split; [reflexivity | apply in_or_app; left; exact Hold].
Qed.

(** The columns of an invoice that only a payment may change, and the
    rest. *)
Lemma markAsPaid_invoices env invoiceId amount d :
  invoices (fst (Business.markAsPaid env invoiceId amount d))
  = match fault env 0%nat with
    | None => map (fun inv => if inv_id inv =? invoiceId then set_paid amount inv else inv)
                  (invoices d)
    | Some _ => invoices d
    end.
Proof.
  unfold Business.markAsPaid.
  destruct (fault env 0%nat); [reflexivity|]; destruct (fault env 1%nat); reflexivity.
Qed.

(** X25.  [markAsPaid] changes nothing but the status and the paid
    amount of the invoices with the key given, and the payments: items,
    requests, every other invoice and every other column stay.  When the
    update returns an error, nothing at all changes and the error is
    shown.  When the update succeeds and the insert of the payment returns
    an error, the invoice is paid, no payment entry exists for it, and no
    error is shown. *)
Theorem markAsPaid_effect env invoiceId amount d :
  let d' := fst (Business.markAsPaid env invoiceId amount d) in
  let shown := snd (Business.markAsPaid env invoiceId amount d) in
  invoice_items d' = invoice_items d
  /\ invoice_edit_requests d' = invoice_edit_requests d
  /\ business_customers d' = business_customers d
  /\ map (fun inv => (inv_id inv, business_id inv, customer_id inv, invoice_number inv,
                      invoice_date inv, due_date inv, total_amount inv, updated_at inv))
         (invoices d')
     = map (fun inv => (inv_id inv, business_id inv, customer_id inv, invoice_number inv,
                        invoice_date inv, due_date inv, total_amount inv, updated_at inv))
           (invoices d)
  /\ (forall inv, In inv (invoices d) -> inv_id inv <> invoiceId -> In inv (invoices d'))
  /\ (forall message, fault env 0%nat = Some message ->
                      d' = d /\ shown = Alert (String.append "Error: " message))
  /\ (fault env 0%nat = None -> fault env 1%nat <> None ->
      shown = Silent
      /\ payments d' = payments d
      /\ forall inv, In inv (invoices d') -> inv_id inv = invoiceId ->
                     status inv = paid /\ paid_amount inv = amount).
Proof.
  intros d' shown; subst d' shown.
  split; [|split; [|split; [|split; [|split; [|split]]]]].
  - unfold Business.markAsPaid; destruct (fault env 0%nat); [reflexivity|].
    destruct (fault env 1%nat); reflexivity.
  - unfold Business.markAsPaid; destruct (fault env 0%nat); [reflexivity|].
    destruct (fault env 1%nat); reflexivity.
  - unfold Business.markAsPaid; destruct (fault env 0%nat); [reflexivity|].
    destruct (fault env 1%nat); reflexivity.
  - rewrite markAsPaid_invoices; destruct (fault env 0%nat); [reflexivity|].
    rewrite map_map; apply map_ext; intro inv.
    destruct (inv_id inv =? invoiceId); reflexivity.
  - intros inv Hin Hne; rewrite markAsPaid_invoices.
    destruct (fault env 0%nat); [exact Hin|].
    apply in_map_iff; exists inv; apply Z.eqb_neq in Hne; rewrite Hne; tauto.
  - intros message F0; unfold Business.markAsPaid; rewrite F0; split; reflexivity.
  - intros F0 F1; unfold Business.markAsPaid; rewrite F0.
    destruct (fault env 1%nat); [|elim F1; reflexivity].
    cbn [fst snd attempt]; split; [reflexivity | split; [reflexivity|]].
    intros inv Hin Hid; apply in_update_invoices in Hin; destruct Hin as [inv0 [_ ->]].
    destruct (inv_id inv0 =? invoiceId) eqn:E; [split; reflexivity|].
    apply Z.eqb_neq in E; contradiction.
Qed.

(** X26.  With invoice keys distinct, "Mark Paid" clicked on a row of a
    dashboard just loaded from the ledger records the invoice's total as
    the amount paid: afterwards the invoice is paid and its paid amount
    equals its total. *)
Theorem mark_paid_on_fresh_row_pays_the_total envL env businessId d v :
  NoDup (map inv_id (invoices d)) ->
  In v (Business.shown_invoices (Business.loadData envL businessId d)) ->
  fault env 0%nat = None ->
  forall inv, In inv (invoices (fst (Business.markPaidClick env v d))) ->
              inv_id inv = inv_id (view_invoice v) ->
              status inv = paid /\ paid_amount inv = total_amount inv.
Proof.
  intros Hn Hv F0 inv Hin Hid.
  apply business_loadData_invoices in Hv; destruct Hv as [Hstored _].
  unfold Business.markPaidClick in Hin; rewrite markAsPaid_invoices, F0 in Hin.
  apply in_map_iff in Hin; destruct Hin as [inv0 [<- Hin0]].
  destruct (inv_id inv0 =? inv_id (view_invoice v)) eqn:E.
  - apply Z.eqb_eq in E.
    rewrite (key_determines_row inv_id _ inv0 (view_invoice v) Hn Hin0 Hstored E).
    split; reflexivity.
  - apply Z.eqb_neq in E; contradiction.
Qed.

(** X27.  A review never changes what a request proposes or what it
    recorded as original: after [approveEditRequest] and after
    [rejectEditRequest], whatever the storage calls return, every request
    has the key, invoice, requester and both snapshots it had.  An
    approval moreover leaves the payments, the customer links and, on
    every invoice, the status, the paid amount and the dates as they
    were. *)
Theorem review_keeps_snapshots_and_payment_state env requestId invoiceId requestedItems d :
  (let d' := fst (Business.approveEditRequest env requestId invoiceId requestedItems d) in
   map (fun r => (req_id r, req_invoice_id r, requested_by r, original_items r,
                  requested_items r)) (invoice_edit_requests d')
   = map (fun r => (req_id r, req_invoice_id r, requested_by r, original_items r,
                    requested_items r)) (invoice_edit_requests d)
   /\ payments d' = payments d
   /\ business_customers d' = business_customers d
   /\ map (fun inv => (inv_id inv, status inv, paid_amount inv, invoice_date inv,
                       due_date inv)) (invoices d')
      = map (fun inv => (inv_id inv, status inv, paid_amount inv, invoice_date inv,
                         due_date inv)) (invoices d))
  /\ map (fun r => (req_id r, req_invoice_id r, requested_by r, original_items r,
                    requested_items r))
         (invoice_edit_requests (fst (Business.rejectEditRequest env requestId d)))
     = map (fun r => (req_id r, req_invoice_id r, requested_by r, original_items r,
                      requested_items r)) (invoice_edit_requests d).
Proof.
  split; [intro d'; subst d'; split; [|split; [|split]]|].
  - rewrite approve_requests_table; destruct (fault env 4%nat); [reflexivity|].
    rewrite map_map; apply map_ext; intro r; destruct (req_id r =? requestId); reflexivity.
  - unfold Business.approveEditRequest; cbn [fst].
    destruct (fault env 1%nat), (fault env 2%nat), (fault env 3%nat), (fault env 4%nat);
      reflexivity.
  - unfold Business.approveEditRequest; cbn [fst].
    destruct (fault env 1%nat), (fault env 2%nat), (fault env 3%nat), (fault env 4%nat);
      reflexivity.
  - rewrite approve_invoices_table; destruct (fault env 3%nat); [reflexivity|].
    rewrite map_map; apply map_ext; intro inv; destruct (inv_id inv =? invoiceId); reflexivity.
  - unfold Business.rejectEditRequest; cbn [fst].
    destruct (fault env 0%nat); cbn [attempt invoice_edit_requests update_requests];
      [reflexivity|].
    rewrite map_map; apply map_ext; intro r; destruct (req_id r =? requestId); reflexivity.
Qed.

(** X28.  An approval overwrites: when two requests on the same invoice
    are approved one after the other (every call succeeding), the invoice
    holds the items and the total of the second, exactly as if the first
    had never been approved. *)
Theorem last_approval_wins env1 env2 r1 r2 d :
  req_invoice_id r1 = req_invoice_id r2 -> succeeds env1 -> succeeds env2 ->
  let both := fst (Business.approveClick env2 r2 (fst (Business.approveClick env1 r1 d))) in
  let alone := fst (Business.approveClick env2 r2 d) in
  items_of both (req_invoice_id r2) = items_of alone (req_invoice_id r2)
  /\ map line_of (items_of both (req_invoice_id r2)) = map line_of (requested_items r2)
  /\ map total_amount (invoices both) = map total_amount (invoices alone)
  /\ forall inv, In inv (invoices both) -> inv_id inv = req_invoice_id r2 ->
                 total_amount inv = price_sum (requested_items r2).
Proof.
  intros Hk H1 H2 both alone; subst both alone; unfold Business.approveClick.
  destruct (approveEditRequest_effect env1 (req_id r1) (req_invoice_id r1)
                                      (requested_items r1) d H1) as [_ [V1 _]].
  destruct (approveEditRequest_effect env2 (req_id r2) (req_invoice_id r2)
                                      (requested_items r2) d H2) as [I2 [V2 _]].
  destruct (approveEditRequest_effect
              env2 (req_id r2) (req_invoice_id r2) (requested_items r2)
              (fst (Business.approveEditRequest env1 (req_id r1) (req_invoice_id r1)
                                                (requested_items r1) d)) H2)
    as [I12 [V12 _]].
  rewrite I12, I2, V12, V2, V1, Hk.
  split; [reflexivity | split; [apply line_of_retarget | split]].
  - rewrite !map_map; apply map_ext; intro inv.
    destruct (inv_id inv =? req_invoice_id r2) eqn:E; cbn [inv_id set_total];
      rewrite E; reflexivity.
  - intros inv Hin Hid; apply in_map_iff in Hin; destruct Hin as [inv0 [<- _]].
    destruct (inv_id inv0 =? req_invoice_id r2) eqn:E; [reflexivity|].
    apply Z.eqb_neq in E; contradiction.
Qed.

(** X29.  [handleCreateInvoice] never touches a stored invoice or item.
    When the invoice is inserted and the insert of its items returns an
    error, the error is shown and the invoice stays stored with its total
    and with no item at all. *)
Theorem handleCreateInvoice_item_failure_leaves_a_bare_invoice
        (parseFloat : string -> Z) env businessId customerId date rows d :
  let d' := fst (Business.handleCreateInvoice parseFloat env businessId customerId date rows d) in
  (forall inv, In inv (invoices d) -> In inv (invoices d'))
  /\ (forall item, In item (invoice_items d) -> In item (invoice_items d'))
  /\ (forall k, k <> next_invoice_id d -> items_of d' k = items_of d k)
  /\ (forall message,
         fault env 1%nat = None -> fault env 2%nat = Some message ->
         snd (Business.handleCreateInvoice parseFloat env businessId customerId date rows d)
         = Alert (String.append "Error creating invoice items: " message)
         /\ invoice_items d' = invoice_items d
         /\ exists inv,
             invoices d' = invoices d ++ [inv]
             /\ inv_id inv = next_invoice_id d
             /\ items_of d' (inv_id inv) = []
             /\ total_amount inv
                = fold_left (fun sum item =>
                               sum + parseFloat (Business.row_quantity item)
                                     * parseFloat (Business.row_unit_price item)) rows 0).
Proof.
  intro d'; subst d'; unfold Business.handleCreateInvoice.
  split; [|split; [|split]].
  - intros inv Hin; destruct (fault env 1%nat); [exact Hin|].
    destruct (fault env 2%nat); cbn [fst invoices insert_items insert_invoice];
      apply in_or_app; left; exact Hin.
  - intros item Hin; destruct (fault env 1%nat); [exact Hin|].
    destruct (fault env 2%nat); cbn [fst invoice_items insert_items insert_invoice];
      [exact Hin | apply in_or_app; left; exact Hin].
  - intros k Hk; destruct (fault env 1%nat); [reflexivity|].
    destruct (fault env 2%nat); cbn [fst]; [reflexivity|].
    rewrite items_of_insert; cbn [inv_id].
    rewrite filter_other_key with (k := next_invoice_id d);
      [apply app_nil_r | reflexivity | exact Hk].
  - intros message F1 F2; rewrite F1, F2; cbn [fst snd].
    split; [reflexivity | split; [reflexivity|]].
    eexists; split; [reflexivity|]; cbn [inv_id total_amount].
    split; [reflexivity | split; [|reflexivity]].
    exact (items_of_next_invoice_id d).
Qed.

End Frames.

Lemma review_of_a_new_request_spares_the_older_witness :
  exists r,
    Store.invoice_edit_requests
      (fst (fst (Customer.submitEditRequest Fixtures.no_env Scenario.editing_page
                                            Scenario.requested)))
    = Store.invoice_edit_requests Scenario.requested ++ [r]
    /\ Store.req_id r = 2
    /\ In Scenario.widget_request
          (Store.invoice_edit_requests
             (fst (Business.approveClick
                     Fixtures.no_env r
                     (fst (fst (Customer.submitEditRequest
                                  Fixtures.no_env Scenario.editing_page
                                  Scenario.requested)))))).
Proof.
  destruct (review_of_a_new_request_spares_the_older
              Fixtures.no_env Fixtures.no_env Scenario.editing_page Scenario.requested
              Scenario.widget_view eq_refl eq_refl) as [r [Hr [_ Hold]]].
  exists r; split; [exact Hr | split].
  - apply app_inv_head in Hr; injection Hr as <-; reflexivity.
  - apply Hold; left; reflexivity.
Defined.

Lemma markAsPaid_effect_witness :
  Business.markAsPaid (Fixtures.only_failing 1) 1 20 Scenario.requested
  = (Store.mkDB [Store.mkBusinessCustomer 1 7 0 (Some 15)]
                [Store.mkInvoice 1 1 7 "INV-1700000000000" 19000 19015 20 20 Store.paid None]
                [Store.mkLineItem 1 "Widget" 2 10 20]
                [Scenario.widget_request]
                [],
     Store.Silent)
  /\ Business.markAsPaid (Fixtures.only_failing 0) 1 20 Scenario.requested
     = (Scenario.requested, Store.Alert "Error: timeout").
Proof.
  split.
  - destruct (markAsPaid_effect (Fixtures.only_failing 1) 1 20 Scenario.requested)
      as [_ [_ [_ [_ [_ [_ H]]]]]].
    destruct H as [Hs [Hp _]]; [reflexivity | discriminate|].
    rewrite (surjective_pairing (Business.markAsPaid _ _ _ _)), Hs; reflexivity.
  - destruct (markAsPaid_effect (Fixtures.only_failing 0) 1 20 Scenario.requested)
      as [_ [_ [_ [_ [_ [H _]]]]]].
    destruct (H "timeout"%string eq_refl) as [Hd Hs].
    rewrite (surjective_pairing (Business.markAsPaid _ _ _ _)), Hd, Hs; reflexivity.
Defined.

Lemma mark_paid_on_fresh_row_pays_the_total_witness :
  Forall (fun inv => Store.inv_id inv = 1 ->
                     Store.status inv = Store.paid
                     /\ Store.paid_amount inv = Store.total_amount inv)
         (Store.invoices
            (fst (Business.markPaidClick Fixtures.no_env Scenario.widget_view
                                         Scenario.requested))).
Proof.
  apply Forall_forall.
  apply (mark_paid_on_fresh_row_pays_the_total
           Fixtures.no_env Fixtures.no_env 1 Scenario.requested Scenario.widget_view).
  - repeat constructor; simpl; tauto.
  - left; reflexivity.
  - reflexivity.
Defined.

Lemma last_approval_wins_witness :
  let second :=
    Store.mkEditRequest 2 1 7 [Store.mkLineItem 1 "Widget" 2 10 20]
                        [Store.mkLineItem 1 "Widget" 1 10 10] Store.pending None in
  let both :=
    fst (Business.approveClick
           Fixtures.no_env second
           (fst (Business.approveClick Fixtures.no_env Scenario.widget_request
                                       Scenario.requested))) in
  map Ledger.line_of (Store.items_of both 1) = [("Widget"%string, 1, 10, 10)]
  /\ forall inv, In inv (Store.invoices both) -> Store.inv_id inv = 1 ->
                 Store.total_amount inv = 10.
Proof.
  intros second both.
  destruct (last_approval_wins Fixtures.no_env Fixtures.no_env Scenario.widget_request
                               second Scenario.requested)
    as [_ [Hl [_ Ht]]].
  - reflexivity.
  - intro k; reflexivity.
  - intro k; reflexivity.
  - split; [exact Hl | exact Ht].
Defined.

Lemma handleCreateInvoice_item_failure_leaves_a_bare_invoice_witness :
  Business.handleCreateInvoice Ledger.parse_decimal (Fixtures.only_failing 2) 1 7 19000
                               Scenario.widget_rows Scenario.linked
  = (Store.mkDB [Store.mkBusinessCustomer 1 7 0 (Some 15)]
                [Store.mkInvoice 1 1 7 "INV-1700000000000" 19000 19015 20 0 Store.sent None]
                [] [] [],
     Store.Alert "Error creating invoice items: timeout").
Proof.
  destruct (handleCreateInvoice_item_failure_leaves_a_bare_invoice
              Ledger.parse_decimal (Fixtures.only_failing 2) 1 7 19000
              Scenario.widget_rows Scenario.linked) as [_ [_ [_ H]]].
  destruct (H "timeout"%string eq_refl eq_refl) as [Hs _].
  rewrite (surjective_pairing (Business.handleCreateInvoice _ _ _ _ _ _ _)), Hs; reflexivity.
Defined.
